(** * Golf skins analyzer: a shallow embedding of [src/skins.js]

    The component [GolfSkinsAnalyzer] keeps four pieces of React state
    ([players], [skinsResults], [error], [holeHandicaps]) and computes a
    nine-hole skins competition in [analyzeSkins].  The embedding follows the
    JavaScript closely:

    - a table cell is a JavaScript primitive ([value]);
    - a JavaScript number is [number]: NaN, the two infinities, or a finite
      value carried as an exact rational.  Every arithmetic operation the
      program performs on finite values (halving, [% 1], [Math.ceil],
      subtracting a stroke, adding skins) is exact on binary64 for the
      magnitudes a score card holds; binary64 rounding, overflow and the sign
      of zero are outside the model (no operation of the program observes the
      sign of zero);
    - a string is a [string] of 8-bit characters, read as the code units
      U+0000..U+00FF;
    - a thrown exception is the [Throw] case of [completion];
    - React state is passed explicitly: [analyzeSkins data st] returns the
      next state. *)

From Stdlib Require Import ZArith QArith Qround Bool List String Ascii Lia.
From Stdlib Require Import DecimalString Permutation.
Import ListNotations.

Local Open Scope Z_scope.

(** ** JavaScript numbers *)

Module Number.

Inductive number : Type :=
| NaN
| PInf
| NInf
| Fin (q : Q).

Definition zero : number := Fin 0.
Definition one : number := Fin 1.
Definition of_Z (z : Z) : number := Fin (inject_Z z).

(** [a <= b] *)
Definition leb (a b : number) : bool :=
  match a, b with
  | NaN, _ | _, NaN => false
  | NInf, _ => true
  | _, PInf => true
  | Fin x, Fin y => Qle_bool x y
  | _, _ => false
  end.

(** [a < b] *)
Definition ltb (a b : number) : bool :=
  match a, b with
  | NaN, _ | _, NaN => false
  | PInf, _ => false
  | _, NInf => false
  | Fin x, Fin y => negb (Qle_bool y x)
  | _, _ => true
  end.

(** [a === b] on numbers: NaN is equal to nothing, itself included. *)
Definition eqb (a b : number) : bool :=
  match a, b with
  | Fin x, Fin y => Qeq_bool x y
  | PInf, PInf => true
  | NInf, NInf => true
  | _, _ => false
  end.

(** ToBoolean on a number: false for NaN and for zero. *)
Definition truthy (a : number) : bool :=
  match a with
  | NaN => false
  | Fin q => negb (Qeq_bool q 0)
  | _ => true
  end.

Definition neg (a : number) : number :=
  match a with
  | NaN => NaN
  | PInf => NInf
  | NInf => PInf
  | Fin q => Fin (- q)
  end.

(** [a + b] *)
Definition add (a b : number) : number :=
  match a, b with
  | NaN, _ | _, NaN => NaN
  | PInf, NInf | NInf, PInf => NaN
  | PInf, _ | _, PInf => PInf
  | NInf, _ | _, NInf => NInf
  | Fin x, Fin y => Fin (x + y)
  end.

(** [a - b] *)
Definition sub (a b : number) : number := add a (neg b).

(** [a / b] *)
Definition div (a b : number) : number :=
  match a, b with
  | NaN, _ | _, NaN => NaN
  | Fin x, Fin y =>
      if Qeq_bool y 0 then
        if Qeq_bool x 0 then NaN
        else if Qle_bool 0 x then PInf else NInf
      else Fin (x / y)
  | Fin _, _ => Fin 0
  | PInf, Fin y => if Qle_bool 0 y then PInf else NInf
  | NInf, Fin y => if Qle_bool 0 y then NInf else PInf
  | _, _ => NaN
  end.

(** The integer part of a rational, rounding toward zero. *)
Definition Qtruncate (q : Q) : Z := Z.quot (Qnum q) (Zpos (Qden q)).

(** [a % b]: the remainder has the sign of the dividend. *)
Definition rem (a b : number) : number :=
  match a, b with
  | NaN, _ | _, NaN => NaN
  | PInf, _ | NInf, _ => NaN
  | Fin x, Fin y =>
      if Qeq_bool y 0 then NaN
      else Fin (x - y * inject_Z (Qtruncate (x / y)))
  | Fin x, _ => Fin x
  end.

(** [Math.ceil] *)
Definition ceil (a : number) : number :=
  match a with
  | Fin q => Fin (inject_Z (Qceiling q))
  | _ => a
  end.

(** [Math.min(...l)]: +Infinity on no argument, NaN as soon as one
    argument is NaN. *)
Definition min2 (lowest x : number) : number :=
  match lowest, x with
  | NaN, _ | _, NaN => NaN
  | _, _ => if ltb x lowest then x else lowest
  end.

Definition min (l : list number) : number := fold_left min2 l PInf.

(** [Number.isNaN] *)
Definition isNaN (a : number) : bool :=
  match a with NaN => true | _ => false end.

(** [a || 0] on numbers. *)
Definition or_zero (a : number) : number := if truthy a then a else Fin 0.

End Number.

Import Number.

(** ** JavaScript primitive values and strings *)

Inductive value : Type :=
| VUndef
| VNull
| VBool (b : bool)
| VNum (n : number)
| VStr (s : string).

(** ToBoolean *)
Definition truthy (v : value) : bool :=
  match v with
  | VUndef | VNull => false
  | VBool b => b
  | VNum n => Number.truthy n
  | VStr s => negb (String.eqb s "")
  end.

(** [v === w] *)
Definition strict_equals (v w : value) : bool :=
  match v, w with
  | VUndef, VUndef => true
  | VNull, VNull => true
  | VBool a, VBool b => Bool.eqb a b
  | VNum a, VNum b => Number.eqb a b
  | VStr a, VStr b => String.eqb a b
  | _, _ => false
  end.

(** [s.startsWith(t)] and [s.includes(t)] *)
Fixpoint startsWith (s t : string) : bool :=
  match t, s with
  | EmptyString, _ => true
  | String c t', String d s' => Ascii.eqb c d && startsWith s' t'
  | String _ _, EmptyString => false
  end.

Fixpoint includes (s t : string) : bool :=
  startsWith s t ||
  match s with
  | EmptyString => false
  | String _ s' => includes s' t
  end.

(** *** parseInt and parseFloat

    Both builtins first convert their argument to a string.  ToString of a
    number (the shortest decimal that reads back as the same binary64 value)
    is a primitive of the JavaScript runtime; it is taken as a parameter
    [NumberToString] of the development. *)

Definition isWhiteSpace (c : ascii) : bool :=
  let n := nat_of_ascii c in
  (Nat.leb 9 n && Nat.leb n 13) || Nat.eqb n 32 || Nat.eqb n 160.

Fixpoint trimStart (s : string) : string :=
  match s with
  | String c s' => if isWhiteSpace c then trimStart s' else s
  | EmptyString => s
  end.

(** The value of a character as a digit in radix up to 36. *)
Definition digitValue (c : ascii) : option Z :=
  let n := Z.of_nat (nat_of_ascii c) in
  if (48 <=? n) && (n <=? 57) then Some (n - 48)
  else if (97 <=? n) && (n <=? 122) then Some (n - 87)
  else if (65 <=? n) && (n <=? 90) then Some (n - 55)
  else None.

Definition radixDigit (radix : Z) (c : ascii) : option Z :=
  match digitValue c with
  | Some d => if d <? radix then Some d else None
  | None => None
  end.

(** Reads the longest prefix of radix-[radix] digits: the number of digits
    read, their value (continuing from [acc]) and the rest of the string. *)
Fixpoint readDigits (radix : Z) (s : string) (count : nat) (acc : Z)
  : nat * Z * string :=
  match s with
  | String c s' =>
      match radixDigit radix c with
      | Some d => readDigits radix s' (S count) (acc * radix + d)
      | None => (count, acc, s)
      end
  | EmptyString => (count, acc, s)
  end.

(** Strips one leading sign. *)
Definition readSign (s : string) : bool * string :=
  match s with
  | String "-" s' => (true, s')
  | String "+" s' => (false, s')
  | _ => (false, s)
  end.

Definition stringParseInt (input : string) : number :=
  let '(negative, s) := readSign (trimStart input) in
  let '(radix, s) :=
    if startsWith s "0x" || startsWith s "0X"
    then (16, substring 2 (length s - 2) s)
    else (10, s) in
  let '(count, mathInt, _) := readDigits radix s 0 0 in
  match count with
  | O => NaN
  | _ => of_Z (if negative then - mathInt else mathInt)
  end.

Definition stringParseFloat (input : string) : number :=
  let '(negative, s) := readSign (trimStart input) in
  if startsWith s "Infinity" then (if negative then NInf else PInf)
  else
    let '(n1, intPart, s) := readDigits 10 s 0 0 in
    let '(n2, mantissa, s) :=
      match s with
      | String "." s' => readDigits 10 s' 0 intPart
      | _ => (O, intPart, s)
      end in
    match n1, n2 with
    | O, O => NaN
    | _, _ =>
        let exponent :=
          match s with
          | String c s' =>
              if Ascii.eqb c "e" || Ascii.eqb c "E" then
                let '(expNegative, s'') := readSign s' in
                let '(n3, e, _) := readDigits 10 s'' 0 0 in
                match n3 with
                | O => 0
                | _ => if expNegative then - e else e
                end
              else 0
          | EmptyString => 0
          end in
        let magnitude :=
          (inject_Z mantissa * Qpower 10 (exponent - Z.of_nat n2))%Q in
        Fin (if negative then - magnitude else magnitude)%Q
    end.

Section Builtins.

Variable NumberToString : number -> string.

(** ToString *)
Definition ToString (v : value) : string :=
  match v with
  | VUndef => "undefined"
  | VNull => "null"
  | VBool true => "true"
  | VBool false => "false"
  | VNum n => NumberToString n
  | VStr s => s
  end.

Definition parseInt (v : value) : number := stringParseInt (ToString v).
Definition parseFloat (v : value) : number := stringParseFloat (ToString v).

End Builtins.

(** ** Exceptions *)

Inductive exn : Type :=
| TypeError (message : string).

Definition message (e : exn) : string :=
  match e with TypeError m => m end.

Inductive completion (A : Type) : Type :=
| Normal (a : A)
| Throw (e : exn).

Arguments Normal {A} a.
Arguments Throw {A} e.

Definition bind {A B : Type} (c : completion A) (k : A -> completion B)
  : completion B :=
  match c with
  | Normal a => k a
  | Throw e => Throw e
  end.

Notation "x <- c ;; k" := (bind c (fun x => k))
  (at level 61, c at next level, right associativity).

(** [l.filter(f)] for a callback that may throw: the callback runs on the
    elements in order and the first exception ends the call. *)
Fixpoint filterC {A : Type} (f : A -> completion bool) (l : list A)
  : completion (list A) :=
  match l with
  | [] => Normal []
  | x :: l' =>
      keep <- f x ;;
      rest <- filterC f l' ;;
      Normal (if keep then x :: rest else rest)
  end.

(** ** Data of the analyzer *)

(** A row of the parsed table is an array of cells; reading past its end
    gives [undefined]. *)
Definition row : Type := list value.

Definition cell (r : row) (i : nat) : value := nth i r VUndef.

(** [r.slice(from, to)] *)
Definition slice {A : Type} (from to : nat) (l : list A) : list A :=
  firstn (to - from) (skipn from l).

Record Player : Type := mkPlayer {
  name : value;
  fullHandicap : number;
  halfHandicap : number;
  scores : list number
}.

(** An entry of [netScores]; [ns_name] is its field [name].  [gross] is
    [None] when [player.scores] has no element at the hole index (the
    JavaScript value is then [undefined]). *)
Record NetScore : Type := mkNetScore {
  ns_name : value;
  gross : option number;
  net : number;
  strokes : number
}.

(** An entry of [results]; [value_] and [hr_scores] are its fields [value]
    and [scores]. *)
Record HoleResult : Type := mkHoleResult {
  winner : value;
  value_ : number;
  hr_scores : list NetScore
}.

(** The [results] object: hole number to hole result, kept in ascending key
    order as JavaScript orders integer keys. *)
Definition results : Type := list (nat * HoleResult).

Fixpoint set_result (k : nat) (v : HoleResult) (o : results) : results :=
  match o with
  | [] => [(k, v)]
  | (k', v') :: o' =>
      if Nat.ltb k k' then (k, v) :: o
      else if Nat.eqb k k' then (k, v) :: o'
      else (k', v') :: set_result k v o'
  end.

Fixpoint get_result (k : nat) (o : results) : option HoleResult :=
  match o with
  | [] => None
  | (k', v') :: o' => if Nat.eqb k k' then Some v' else get_result k o'
  end.

(** [Object.values(o)] *)
Definition Object_values (o : results) : list HoleResult := map snd o.

(** The React state of the component. *)
Record State : Type := mkState {
  players : list Player;
  skinsResults : results;
  error : option string;
  holeHandicaps : list number
}.

Definition initialState : State := mkState [] [] None [].

Definition setPlayers (p : list Player) (st : State) : State :=
  mkState p (skinsResults st) (error st) (holeHandicaps st).
Definition setSkinsResults (r : results) (st : State) : State :=
  mkState (players st) r (error st) (holeHandicaps st).
Definition setError (e : string) (st : State) : State :=
  mkState (players st) (skinsResults st) (Some e) (holeHandicaps st).
Definition setHoleHandicaps (h : list number) (st : State) : State :=
  mkState (players st) (skinsResults st) (error st) h.

(** ** The program *)

(** [calculateStrokesReceived] *)
Definition calculateStrokesReceived (halfHandicap holeHandicap : number)
  : number :=
  if negb (Number.eqb (Number.rem halfHandicap one) zero) then
    if Number.leb holeHandicap (Number.ceil halfHandicap) then one else zero
  else
    if Number.leb holeHandicap halfHandicap then one else zero.

(** The callback of [data.filter] in [analyzeSkins].  The conjunction is
    evaluated left to right and stops at the first falsy operand.
    [row[2]?.includes("Pars")] is [undefined] when [row[2]] is [undefined]
    or [null]; on a number or a boolean the property [includes] is
    [undefined] and calling it throws a TypeError. *)
Definition isPlayerRow (r : row) : completion bool :=
  if negb (truthy (cell r 0)) then Normal false
  else if strict_equals (cell r 0) (VStr "Player") then Normal false
  else if strict_equals (cell r 0) (VStr "HDCP") then Normal false
  else if strict_equals (cell r 0) (VStr "PAR") then Normal false
  else if strict_equals (cell r 0) (VStr "") then Normal false
  else
    match cell r 2 with
    | VUndef | VNull => Normal true
    | VStr s => Normal (negb (includes s "Pars"))
    | VBool _ | VNum _ =>
        Throw (TypeError "row[2]?.includes is not a function")
    end.

(** Actual hole handicaps from St. Peters Golf Course *)
Definition actualHoleHandicaps : list number :=
  map of_Z [4; 14; 16; 2; 18; 8; 6; 12; 10].

Definition noWinner : value := VStr "No Winner".

Section Analyzer.

Variable NumberToString : number -> string.

(** The callback of [playerRows.map]. *)
Definition makePlayer (r : row) : Player :=
  {| name := cell r 0;
     fullHandicap := or_zero (parseFloat NumberToString (cell r 13));
     halfHandicap :=
       Number.div (or_zero (parseFloat NumberToString (cell r 13)))
                  (of_Z 2);
     scores := map (parseInt NumberToString) (slice 3 12 r) |}.

(** The callback of [playerData.map] inside the loop.  Subtracting from
    [undefined] gives NaN. *)
Definition netScore (holeIndex : nat) (holeHandicap : number)
           (player : Player) : NetScore :=
  let strokesReceived :=
    calculateStrokesReceived (halfHandicap player) holeHandicap in
  let grossScore := nth_error (scores player) holeIndex in
  {| ns_name := name player;
     gross := grossScore;
     net := match grossScore with
            | Some g => Number.sub g strokesReceived
            | None => NaN
            end;
     strokes := strokesReceived |}.

(** One, if any, winner decides the hole. *)
Definition holeResult (netScores : list NetScore) : HoleResult :=
  let lowestNet := Number.min (map net netScores) in
  let winners :=
    filter (fun s => Number.eqb (net s) lowestNet) netScores in
  match winners with
  | [w] => {| winner := ns_name w; value_ := one; hr_scores := netScores |}
  | _ => {| winner := noWinner; value_ := zero; hr_scores := netScores |}
  end.

(** The body of the [for] loop.  [holeIndex] runs over 0..8 and is always
    within the table of hole handicaps. *)
Definition analyzeHole (playerData : list Player) (holeIndex : nat)
           (acc : results) : results :=
  let holeNumber := (holeIndex + 1)%nat in
  let holeHandicap := nth holeIndex actualHoleHandicaps NaN in
  let netScores := map (netScore holeIndex holeHandicap) playerData in
  set_result holeNumber (holeResult netScores) acc.

Definition playerRows (data : list row) : completion (list row) :=
  filterC isPlayerRow data.

(** [analyzeSkins] *)
Definition analyzeSkins (data : list row) (st : State) : completion State :=
  let parsRow :=
    find (fun r => strict_equals (cell r 2) (VStr "Pars")) data in
  rows <- playerRows data ;;
  let playerData := map makePlayer rows in
  let st := setPlayers playerData st in
  let st := setHoleHandicaps actualHoleHandicaps st in
  let res :=
    fold_left (fun acc holeIndex => analyzeHole playerData holeIndex acc)
              (seq 0 9) [] in
  Normal (setSkinsResults res st).

(** The [complete] callback of [handleFileUpload]. *)
Definition uploadComplete (data : list row) (st : State) : State :=
  match analyzeSkins data st with
  | Normal st' => st'
  | Throw err => setError ("Error parsing file: " ++ message err) st
  end.

(** The body of [loadDefaultData] once the file is read and parsed: an
    exception is logged and the state is left as it was. *)
Definition loadDefaultData (data : list row) (st : State) : State :=
  match analyzeSkins data st with
  | Normal st' => st'
  | Throw _ => st
  end.

(** [totalValue] in the "Total Skins by Player" view. *)
Definition totalValue (st : State) (player : Player) : number :=
  let skinsWon :=
    filter (fun result => strict_equals (winner result) (name player))
           (Object_values (skinsResults st)) in
  fold_left (fun sum skin => Number.add sum (value_ skin)) skinsWon zero.

End Analyzer.

(** A number printer for tables whose numeric cells are integers below
    10^21 in magnitude, where ToString prints the decimal digits. *)
Definition integerToString (n : number) : string :=
  match n with
  | NaN => "NaN"
  | PInf => "Infinity"
  | NInf => "-Infinity"
  | Fin q =>
      let z := Qfloor q in
      if z <? 0
      then "-" ++ NilEmpty.string_of_uint (N.to_uint (Z.to_N (- z)))
      else NilEmpty.string_of_uint (N.to_uint (Z.to_N z))
  end.

(** * Vocabulary of the properties

    The definitions below are not part of the program: they name what the
    properties speak about. *)

(** ** Integers among the rationals *)

Definition is_integer (q : Q) : Prop := exists z : Z, q == inject_Z z.

(** ** Text that does not start an integer *)

(** After leading white space and one sign, the text begins with a decimal
    digit. *)
Definition startsWithDigit (s : string) : bool :=
  match snd (readSign (trimStart s)) with
  | String c _ =>
      match radixDigit 10 c with
      | Some _ => true
      | None => false
      end
  | EmptyString => false
  end.

(** ** The hole results in closed form *)

(** The net scores and the result of the hole at [holeIndex]. *)
Definition netScoresAt (playerData : list Player) (holeIndex : nat)
  : list NetScore :=
  map (netScore holeIndex (nth holeIndex actualHoleHandicaps NaN)) playerData.

Definition holeResultAt (playerData : list Player) (holeIndex : nat)
  : HoleResult :=
  holeResult (netScoresAt playerData holeIndex).

(** The [results] object once the loop has run. *)
Definition holeResults (playerData : list Player) : results :=
  map (fun holeIndex =>
         ((holeIndex + 1)%nat, holeResultAt playerData holeIndex))
      (seq 0 9).

(** A net score attains the minimum of a hole when it is below or equal to
    every net score of the hole ([<=] of JavaScript numbers, which NaN never
    satisfies). *)
Definition attainsMinimum (netScores : list NetScore) (s : NetScore) : bool :=
  forallb (fun t => Number.leb (net s) (net t)) netScores.

Definition emptyHoleResult : HoleResult :=
  {| winner := noWinner; value_ := zero; hr_scores := [] |}.

(** ** Player rows as the specification describes them *)

Definition reservedToken (v : value) : bool :=
  strict_equals v (VStr "Player")
  || strict_equals v (VStr "HDCP")
  || strict_equals v (VStr "PAR").

Definition containsPars (v : value) : bool :=
  match v with
  | VStr s => includes s "Pars"
  | _ => false
  end.

(** The classification of the specification: a first cell that is not empty
    (truthy) and not a reserved token, a third cell without "Pars". *)
Definition playerRowSpec (r : row) : bool :=
  truthy (cell r 0)
  && negb (reservedToken (cell r 0))
  && negb (containsPars (cell r 2)).

Definition textOrBlank (v : value) : bool :=
  match v with
  | VUndef | VNull | VStr _ => true
  | VBool _ | VNum _ => false
  end.

(** ** Totals *)

Definition sumNumbers (l : list number) : number :=
  fold_left Number.add l zero.

(** No two names of the list are strictly equal. *)
Fixpoint distinctNames (l : list value) : bool :=
  match l with
  | [] => true
  | x :: l' =>
      forallb (fun y => negb (strict_equals x y)) l' && distinctNames l'
  end.

Definition won (r : HoleResult) : bool := Number.eqb (value_ r) one.

(** ** Sample tables

    An uploaded file (every cell a string): a header row, the pars row, the
    hole-handicap row, three players and the empty last line of the file.
    Cy's score on hole 6 is not a number. *)

Definition text (cells : list string) : row := map VStr cells.

Local Open Scope string_scope.

Definition sampleRound : list row :=
  [ text ["Player"; ""; ""; "1"; "2"; "3"; "4"; "5"; "6"; "7"; "8"; "9";
          "Total"; "HDCP"];
    text [""; ""; "Pars"; "4"; "4"; "3"; "5"; "4"; "4"; "3"; "5"; "4";
          "36"; ""];
    text ["HDCP"; ""; ""; "4"; "14"; "16"; "2"; "18"; "8"; "6"; "12"; "10";
          ""; ""];
    text ["Ann"; ""; ""; "4"; "5"; "3"; "6"; "4"; "5"; "3"; "5"; "4";
          "39"; "9"];
    text ["Bob"; ""; ""; "5"; "5"; "4"; "6"; "5"; "4"; "3"; "6"; "4";
          "42"; "12"];
    text ["Cy"; ""; ""; "6"; "4"; "4"; "7"; "5"; "x"; "4"; "5"; "5";
          "40"; ""];
    text [""] ].

(** Two players with the same card, the first of them named like the text
    the program stores for a hole without winner. *)
Definition sentinelNamed : list row :=
  [ text ["No Winner"; ""; ""; "4"; "5"; "3"; "6"; "4"; "5"; "3"; "5"; "4";
          "39"; "9"];
    text ["Bob"; ""; ""; "4"; "5"; "3"; "6"; "4"; "5"; "3"; "5"; "4";
          "39"; "9"] ].

Local Close Scope string_scope.

Definition sampleState : State :=
  Eval vm_compute in uploadComplete integerToString sampleRound initialState.

(** A table with the three header rows of the sample round and the empty
    last line only. *)
Definition headersOnly : list row := firstn 3 sampleRound ++ [text [""%string]].

(** The default file is parsed with [dynamicTyping], which turns a numeric
    field into a number and an empty field into [null]. *)
Definition numericThirdCell : list row :=
  [ [VStr "Ann"; VNull; VNum (of_Z 3); VNum (of_Z 4); VNum (of_Z 5);
     VNum (of_Z 3); VNum (of_Z 6); VNum (of_Z 4); VNum (of_Z 5);
     VNum (of_Z 3); VNum (of_Z 5); VNum (of_Z 4); VNum (of_Z 39);
     VNum (of_Z 9)] ].

(** * The views of the component

    What the returned JSX computes from the state, without the markup. *)

(** The results are rendered when [Object.keys(skinsResults).length > 0]. *)
Definition resultsShown (st : State) : bool :=
  Nat.ltb 0 (List.length (skinsResults st)).

(** A cell of the results table is bold when
    [score.net === Math.min(...result.scores.map((s) => s.net))]. *)
Definition highlighted (result : HoleResult) (score : NetScore) : bool :=
  Number.eqb (net score) (Number.min (map net (hr_scores result))).

(** The entries of the "Skins Summary" list:
    [Object.entries(skinsResults).filter(([_, result]) =>
       result.winner !== "No Winner")]. *)
Definition summaryEntries (st : State) : list (nat * HoleResult) :=
  filter (fun entry => negb (strict_equals (winner (snd entry)) noWinner))
         (skinsResults st).

(** A player has a line in "Total Skins by Player" when [totalValue > 0]. *)
Definition totalShown (st : State) (player : Player) : bool :=
  Number.ltb zero (totalValue st player).

(** [totalValue === 1 ? "skin" : "skins"] *)
Definition skinLabel (st : State) (player : Player) : string :=
  if Number.eqb (totalValue st player) one then "skin" else "skins".

(** * Vocabulary of the further properties *)

(** A row on which the filter callback throws: the tests on the first cell
    pass and the third cell is a number or a boolean. *)
Definition offendingRow (r : row) : bool :=
  truthy (cell r 0)
  && negb (reservedToken (cell r 0))
  && negb (textOrBlank (cell r 2)).

Definition rowFilterError : exn :=
  TypeError "row[2]?.includes is not a function".





(** What a hole depends on: per player the name, the half handicap and the
    score of that hole. *)
Definition holeView (holeIndex : nat) (p : Player)
  : value * number * option number :=
  (name p, halfHandicap p, nth_error (scores p) holeIndex).

(** The same table as [sampleRound] with the players in another order. *)
Definition sampleRoundReordered : list row :=
  firstn 3 sampleRound
  ++ [nth 5 sampleRound []; nth 3 sampleRound []; nth 4 sampleRound [];
      nth 6 sampleRound []].

(** One player alone on the card. *)
Definition lonePlayer : list row := [nth 3 sampleRound []].

(** A player row that ends after the score of hole 4. *)
Definition shortRow : list row :=
  [nth 3 sampleRound []; firstn 7 (nth 4 sampleRound [])].

(** The sample round with Ann's score of hole 1 changed from 4 to 7. *)
Definition sampleRoundOtherScore : list row :=
  firstn 3 sampleRound
  ++ [ text ["Ann"%string; ""%string; ""%string; "7"%string; "5"%string;
             "3"%string; "6"%string; "4"%string; "5"%string; "3"%string;
             "5"%string; "4"%string; "42"%string; "9"%string];
       nth 4 sampleRound []; nth 5 sampleRound [] ].


(** * Properties *)

(** ** The parsers on examples *)

Example parseInt_examples :
  stringParseInt "  42abc" = of_Z 42 /\
  stringParseInt "-7" = of_Z (-7) /\
  stringParseInt "4.7" = of_Z 4 /\
  stringParseInt "0x1F" = of_Z 31 /\
  stringParseInt "0x" = NaN /\
  stringParseInt "" = NaN /\
  stringParseInt "abc" = NaN /\
  stringParseInt "-" = NaN /\
  stringParseInt "null" = NaN.
Proof. repeat split; reflexivity. Qed.

Example parseFloat_examples :
  stringParseFloat "9" = Fin 9 /\
  stringParseFloat " 9.5 strokes" = Fin (95 * / 10) /\
  stringParseFloat ".5" = Fin (5 * / 10) /\
  stringParseFloat "1e2" = Fin (1 * 100) /\
  stringParseFloat "-Infinity" = NInf /\
  stringParseFloat "." = NaN /\
  stringParseFloat "" = NaN /\
  stringParseFloat "undefined" = NaN.
Proof. repeat split; vm_compute; reflexivity. Qed.

(** ** The stroke allocation rule *)

Lemma Qtruncate_div_one (q : Q) : Qtruncate (q / 1) = Qtruncate q.
Proof.
  destruct q as [n d]. unfold Qtruncate, Qdiv, Qmult, Qinv. simpl.
  now rewrite Z.mul_1_r, Pos.mul_1_r.
Qed.

Lemma Qtruncate_inject_Z (q : Q) (z : Z) : q == inject_Z z -> Qtruncate q = z.
Proof.
  destruct q as [n d]. unfold Qeq, Qtruncate. simpl. intros H.
  rewrite Z.mul_1_r in H. subst n. apply Z.quot_mul. discriminate.
Qed.

(** [halfHandicap % 1 !== 0] tests that a finite half handicap is not an
    integer. *)
Lemma rem_one_is_zero (q : Q) :
  Number.eqb (Number.rem (Fin q) one) zero = true <-> is_integer q.
Proof.
  unfold Number.rem, one, zero.
  change (Qeq_bool 1 0) with false. cbv iota. unfold Number.eqb.
  rewrite Qeq_bool_iff, Qtruncate_div_one. split.
  - intros H. exists (Qtruncate q).
    setoid_replace q with (q - 1 * inject_Z (Qtruncate q)
                           + inject_Z (Qtruncate q))%Q at 1 by ring.
    rewrite H. ring.
  - intros [z Hz]. rewrite (Qtruncate_inject_Z q z Hz), Hz. ring.
Qed.

Lemma leb_of_Z (a b : Z) : Number.leb (of_Z a) (of_Z b) = true <-> (a <= b)%Z.
Proof.
  unfold of_Z, Number.leb. rewrite Qle_bool_iff, <- Zle_Qle. reflexivity.
Qed.

Lemma one_neq_zero : one <> zero.
Proof. discriminate. Qed.

Lemma strokes_fractional (q : Q) (d : number) :
  ~ is_integer q ->
  calculateStrokesReceived (Fin q) d
  = if Number.leb d (Number.ceil (Fin q)) then one else zero.
Proof.
  intros H. unfold calculateStrokesReceived.
  destruct (Number.eqb (Number.rem (Fin q) one) zero) eqn:E; [|reflexivity].
  apply rem_one_is_zero in E. contradiction.
Qed.

Lemma strokes_integral (q : Q) (d : number) :
  is_integer q ->
  calculateStrokesReceived (Fin q) d
  = if Number.leb d (Fin q) then one else zero.
Proof.
  intros H. unfold calculateStrokesReceived.
  apply rem_one_is_zero in H. now rewrite H.
Qed.

Lemma four_and_a_half_not_integer : ~ is_integer 4.5.
Proof.
  intros [z Hz]. unfold Qeq in Hz. simpl in Hz. lia.
Qed.

(** C2: a finite half handicap that is not an integer earns a stroke exactly
    on the holes whose difficulty is at most its ceiling; an integer half
    handicap earns a stroke exactly on the holes whose difficulty is at most
    the half handicap itself.  With a half handicap of 4.5 a hole of
    difficulty 5 earns the stroke and a hole of difficulty 6 does not. *)
Theorem strokes_received_rule (q : Q) (d : Z) :
  (~ is_integer q ->
   (calculateStrokesReceived (Fin q) (of_Z d) = one <-> (d <= Qceiling q)%Z)
   /\ (calculateStrokesReceived (Fin q) (of_Z d) = zero
       <-> ~ (d <= Qceiling q)%Z))
  /\ (is_integer q ->
      (calculateStrokesReceived (Fin q) (of_Z d) = one <-> (inject_Z d <= q)%Q)
      /\ (calculateStrokesReceived (Fin q) (of_Z d) = zero
          <-> ~ (inject_Z d <= q)%Q))
  /\ calculateStrokesReceived (Fin 4.5) (of_Z 5) = one
  /\ calculateStrokesReceived (Fin 4.5) (of_Z 6) = zero.
Proof.
  split; [|split; [|split; reflexivity]].
  - intros H. rewrite (strokes_fractional q (of_Z d) H).
    change (Number.ceil (Fin q)) with (of_Z (Qceiling q)).
    rewrite <- leb_of_Z.
    destruct (Number.leb (of_Z d) (of_Z (Qceiling q))); split; split;
      congruence || discriminate.
  - intros H. rewrite (strokes_integral q (of_Z d) H).
    unfold of_Z, Number.leb. rewrite <- Qle_bool_iff.
    destruct (Qle_bool (inject_Z d) q); split; split;
      congruence || discriminate.
Qed.

Lemma strokes_received_rule_witness :
  ~ is_integer 4.5
  /\ (calculateStrokesReceived (Fin 4.5) (of_Z 5) = one <-> (5 <= Qceiling 4.5)%Z).
Proof.
  split.
  - exact four_and_a_half_not_integer.
  - exact (proj1 (proj1 (strokes_received_rule 4.5 5)
                        four_and_a_half_not_integer)).
Defined.

(** C10: whatever the half handicap and the hole handicap (any JavaScript
    number, NaN and the infinities included), [calculateStrokesReceived]
    returns exactly 0 or exactly 1, so the value is neither negative nor
    above 1; the same holds for the [strokes] field of every net score. *)
Theorem strokes_received_zero_or_one (halfHandicap holeHandicap : number) :
  (calculateStrokesReceived halfHandicap holeHandicap = zero
   \/ calculateStrokesReceived halfHandicap holeHandicap = one)
  /\ Number.leb zero (calculateStrokesReceived halfHandicap holeHandicap) = true
  /\ Number.leb (calculateStrokesReceived halfHandicap holeHandicap) one = true
  /\ forall (holeIndex : nat) (player : Player),
      strokes (netScore holeIndex holeHandicap player) = zero
      \/ strokes (netScore holeIndex holeHandicap player) = one.
Proof.
  assert (H : forall h d, calculateStrokesReceived h d = zero
                          \/ calculateStrokesReceived h d = one).
  { intros h d. unfold calculateStrokesReceived.
    destruct (negb _); destruct (Number.leb _ _); auto. }
  split; [apply H|].
  split; [|split].
  - destruct (H halfHandicap holeHandicap) as [E|E]; rewrite E; reflexivity.
  - destruct (H halfHandicap holeHandicap) as [E|E]; rewrite E; reflexivity.
  - intros holeIndex player. apply H.
Qed.

(** ** The order of JavaScript numbers and [Math.min] *)

Module NumberFacts.

Ltac by_cases :=
  repeat match goal with
         | a : number |- _ => destruct a
         end;
  simpl in *; try reflexivity; try discriminate; try congruence.

Lemma leb_NaN_r (a : number) : Number.leb a NaN = false.
Proof. by_cases. Qed.

Lemma eqb_NaN_r (a : number) : Number.eqb a NaN = false.
Proof. by_cases. Qed.

Lemma leb_refl (a : number) : isNaN a = false -> Number.leb a a = true.
Proof. by_cases. intros _. apply Qle_bool_iff, Qle_refl. Qed.

Lemma leb_PInf (a : number) : isNaN a = false -> Number.leb a PInf = true.
Proof. by_cases. Qed.

Lemma leb_trans (a b c : number) :
  Number.leb a b = true -> Number.leb b c = true -> Number.leb a c = true.
Proof.
  by_cases. rewrite !Qle_bool_iff. apply Qle_trans.
Qed.

Lemma ltb_leb (a b : number) :
  Number.ltb a b = true -> Number.leb a b = true.
Proof.
  by_cases. rewrite negb_true_iff, Qle_bool_iff. intros H.
  match goal with
  | |- (?x <= ?y)%Q => destruct (Qlt_le_dec x y) as [L|L]
  end.
  - now apply Qlt_le_weak.
  - apply Qle_bool_iff in L. congruence.
Qed.

Lemma ltb_false_leb (a b : number) :
  isNaN a = false -> isNaN b = false ->
  Number.ltb a b = false -> Number.leb b a = true.
Proof.
  by_cases. intros _ _. now rewrite negb_false_iff.
Qed.

Lemma leb_antisym (a b : number) :
  Number.leb a b = true -> Number.leb b a = true -> Number.eqb a b = true.
Proof.
  by_cases. rewrite !Qle_bool_iff, Qeq_bool_iff. apply Qle_antisym.
Qed.

Lemma eqb_leb (a b : number) :
  Number.eqb a b = true -> Number.leb a b = true.
Proof.
  by_cases. rewrite Qeq_bool_iff, Qle_bool_iff. intros H. rewrite H.
  apply Qle_refl.
Qed.

Lemma eqb_sym (a b : number) : Number.eqb a b = Number.eqb b a.
Proof.
  by_cases. apply eq_true_iff_eq. rewrite !Qeq_bool_iff.
  split; intros H; now symmetry.
Qed.

Lemma eqb_refl (a : number) : isNaN a = false -> Number.eqb a a = true.
Proof. by_cases. intros _. apply Qeq_bool_iff. reflexivity. Qed.

Lemma eqb_trans (a b c : number) :
  Number.eqb a b = true -> Number.eqb b c = true -> Number.eqb a c = true.
Proof.
  by_cases. rewrite !Qeq_bool_iff. intros H1 H2. now rewrite H1.
Qed.

Lemma min2_NaN_l (x : number) : min2 NaN x = NaN.
Proof. reflexivity. Qed.

Lemma min_fold_NaN (l : list number) : fold_left min2 l NaN = NaN.
Proof. induction l as [|x l IH]; simpl; auto. Qed.

Lemma min_fold_has_NaN (l : list number) (acc : number) :
  existsb isNaN l = true -> fold_left min2 l acc = NaN.
Proof.
  revert acc. induction l as [|x l IH]; intros acc H; simpl in *.
  - discriminate.
  - destruct x; simpl in H; try (apply IH; exact H).
    replace (min2 acc NaN) with NaN by (destruct acc; reflexivity).
    apply min_fold_NaN.
Qed.

Lemma min2_choice (acc x : number) :
  isNaN acc = false -> isNaN x = false ->
  isNaN (min2 acc x) = false
  /\ (min2 acc x = acc \/ min2 acc x = x)
  /\ Number.leb (min2 acc x) acc = true
  /\ Number.leb (min2 acc x) x = true.
Proof.
  intros Ha Hx.
  assert (E : min2 acc x = if Number.ltb x acc then x else acc).
  { destruct acc, x; simpl in *; try discriminate; reflexivity. }
  rewrite E. destruct (Number.ltb x acc) eqn:L.
  - repeat split; auto using ltb_leb, leb_refl.
  - repeat split; auto using ltb_false_leb, leb_refl.
Qed.

(** Without NaN the fold returns a least element of the accumulator and the
    list. *)
Lemma min_fold_least (l : list number) (acc : number) :
  isNaN acc = false -> existsb isNaN l = false ->
  let m := fold_left min2 l acc in
  isNaN m = false
  /\ (m = acc \/ In m l)
  /\ Number.leb m acc = true
  /\ forall y, In y l -> Number.leb m y = true.
Proof.
  revert acc. induction l as [|x l IH]; intros acc Ha Hl; simpl in *.
  - split; [exact Ha|]. split; [now left|].
    split; [now apply leb_refl|]. intros y [].
  - apply orb_false_iff in Hl. destruct Hl as [Hx Hl].
    destruct (min2_choice acc x Ha Hx) as (Hn & Hc & Hla & Hlx).
    destruct (IH (min2 acc x) Hn Hl) as (Hm & Hin & Hle & Hall).
    split; [exact Hm|]. split; [|split].
    + destruct Hin as [E|Hin]; [|auto].
      rewrite E. destruct Hc as [C|C]; rewrite C; auto.
    + eapply leb_trans; eauto.
    + intros y [<-|Hy]; [eapply leb_trans; eauto | auto].
Qed.

(** A member of the list is strictly equal to [Math.min] of the list exactly
    when it is below or equal to every member; with a NaN in the list no
    member is. *)
Lemma eqb_min (l : list number) (x : number) :
  In x l ->
  Number.eqb x (Number.min l) = forallb (Number.leb x) l.
Proof.
  intros Hx. unfold Number.min.
  destruct (existsb isNaN l) eqn:HN.
  - rewrite (min_fold_has_NaN l PInf HN), eqb_NaN_r.
    apply existsb_exists in HN. destruct HN as (y & Hy & Hy').
    destruct (forallb (Number.leb x) l) eqn:F; [|reflexivity].
    rewrite forallb_forall in F. specialize (F y Hy).
    destruct y; try discriminate. now rewrite leb_NaN_r in F.
  - destruct (min_fold_least l PInf eq_refl HN) as (Hm & Hin & _ & Hall).
    set (m := fold_left min2 l PInf) in *.
    assert (Hxn : isNaN x = false).
    { destruct (isNaN x) eqn:E; [|reflexivity].
      assert (existsb isNaN l = true) by (apply existsb_exists; eauto).
      congruence. }
    apply eq_true_iff_eq. rewrite forallb_forall. split.
    + intros E y Hy. eapply leb_trans; [apply eqb_leb; exact E | auto].
    + intros F. apply leb_antisym; [|auto].
      destruct Hin as [E|Hin]; [rewrite E; now apply leb_PInf | auto].
Qed.

End NumberFacts.

(** ** The shape of what [analyzeSkins] produces *)

Section AnalyzerFacts.

Variable NumberToString : number -> string.

Lemma loop_results (playerData : list Player) :
  fold_left (fun acc holeIndex => analyzeHole playerData holeIndex acc)
            (seq 0 9) []
  = holeResults playerData.
Proof. reflexivity. Qed.

Lemma analyzeSkins_playerRows (data : list row) (st : State) :
  analyzeSkins NumberToString data st
  = bind (playerRows data) (fun rows =>
      let playerData := map (makePlayer NumberToString) rows in
      Normal (mkState playerData (holeResults playerData) (error st)
                      actualHoleHandicaps)).
Proof. reflexivity. Qed.

Lemma analyzeSkins_Normal (data : list row) (st st' : State) :
  analyzeSkins NumberToString data st = Normal st' ->
  exists rows,
    playerRows data = Normal rows
    /\ st' = mkState (map (makePlayer NumberToString) rows)
                     (holeResults (map (makePlayer NumberToString) rows))
                     (error st) actualHoleHandicaps.
Proof.
  rewrite analyzeSkins_playerRows.
  destruct (playerRows data) as [rows|e]; simpl; intros H.
  - exists rows. split; [reflexivity | congruence].
  - discriminate.
Qed.

Lemma analyzeSkins_results (data : list row) (st st' : State) :
  analyzeSkins NumberToString data st = Normal st' ->
  skinsResults st' = holeResults (players st')
  /\ holeHandicaps st' = actualHoleHandicaps
  /\ error st' = error st.
Proof.
  intros H. apply analyzeSkins_Normal in H.
  destruct H as (rows & _ & ->). simpl. auto.
Qed.

Lemma get_result_holeResults (playerData : list Player) (holeNumber : nat) :
  get_result holeNumber (holeResults playerData)
  = if Nat.leb 1 holeNumber && Nat.leb holeNumber 9
    then Some (holeResultAt playerData (holeNumber - 1))
    else None.
Proof.
  do 10 (destruct holeNumber as [|holeNumber]; [reflexivity|]).
  reflexivity.
Qed.

Lemma get_result_Some (playerData : list Player) (holeNumber : nat)
      (r : HoleResult) :
  get_result holeNumber (holeResults playerData) = Some r ->
  (1 <= holeNumber <= 9)%nat
  /\ r = holeResultAt playerData (holeNumber - 1).
Proof.
  rewrite get_result_holeResults.
  destruct (Nat.leb 1 holeNumber) eqn:A; [|discriminate].
  destruct (Nat.leb holeNumber 9) eqn:B; [|discriminate].
  simpl. intros H. apply Nat.leb_le in A, B. split; [lia | congruence].
Qed.

Lemma hr_scores_holeResult (netScores : list NetScore) :
  hr_scores (holeResult netScores) = netScores.
Proof.
  unfold holeResult.
  destruct (filter _ netScores) as [|w [|w' ws]]; reflexivity.
Qed.

End AnalyzerFacts.

(** ** Who wins a hole *)

Lemma forallb_map_net (f : number -> bool) (l : list NetScore) :
  forallb f (map net l) = forallb (fun t => f (net t)) l.
Proof.
  induction l as [|t l IH]; simpl; [reflexivity | now rewrite IH].
Qed.

(** The [winners] of the program are the net scores attaining the minimum. *)
Lemma winners_attain_minimum (netScores : list NetScore) :
  filter (fun s => Number.eqb (net s) (Number.min (map net netScores)))
         netScores
  = filter (attainsMinimum netScores) netScores.
Proof.
  apply filter_ext_in. intros s Hs. unfold attainsMinimum.
  rewrite <- forallb_map_net. apply NumberFacts.eqb_min.
  now apply in_map.
Qed.

Lemma holeResult_cases (netScores : list NetScore) :
  let lowest := filter (attainsMinimum netScores) netScores in
  (value_ (holeResult netScores) = one <-> List.length lowest = 1%nat)
  /\ (forall w, lowest = [w] ->
        value_ (holeResult netScores) = one
        /\ winner (holeResult netScores) = ns_name w)
  /\ (List.length lowest <> 1%nat ->
        value_ (holeResult netScores) = zero
        /\ winner (holeResult netScores) = noWinner).
Proof.
  unfold holeResult. rewrite winners_attain_minimum.
  destruct (filter (attainsMinimum netScores) netScores) as [|w [|w' ws]];
    simpl; repeat split; try discriminate; try congruence; try lia;
    intros; try discriminate; try congruence; try lia.
  all: try (injection H as <-; reflexivity).
Qed.

(** C1: when [analyzeSkins] returns, every hole number 1..9 has a hole
    result, built from one net score per player (gross score minus stroke).
    Its value is 1 exactly when one single net score attains the minimum of
    the hole, and the winner is then that player's name; in every other case
    (several attain it, or none because the player list is empty) the value
    is 0 and the winner is "No Winner". *)
Theorem hole_winner_unique_minimum
        (NumberToString : number -> string) (data : list row)
        (st st' : State) (holeNumber : nat) :
  analyzeSkins NumberToString data st = Normal st' ->
  (1 <= holeNumber <= 9)%nat ->
  exists r,
    get_result holeNumber (skinsResults st') = Some r
    /\ hr_scores r = netScoresAt (players st') (holeNumber - 1)
    /\ (value_ r = one
        <-> List.length (filter (attainsMinimum (hr_scores r)) (hr_scores r))
            = 1%nat)
    /\ (forall w,
          filter (attainsMinimum (hr_scores r)) (hr_scores r) = [w] ->
          value_ r = one /\ winner r = ns_name w)
    /\ (List.length (filter (attainsMinimum (hr_scores r)) (hr_scores r)) <> 1%nat
        -> value_ r = zero /\ winner r = noWinner).
Proof.
  intros H Hh. apply analyzeSkins_results in H. destruct H as (-> & _ & _).
  exists (holeResultAt (players st') (holeNumber - 1)).
  rewrite get_result_holeResults.
  replace (Nat.leb 1 holeNumber) with true by (symmetry; apply Nat.leb_le; lia).
  replace (Nat.leb holeNumber 9) with true by (symmetry; apply Nat.leb_le; lia).
  split; [reflexivity|]. unfold holeResultAt.
  rewrite hr_scores_holeResult. split; [reflexivity|].
  apply holeResult_cases.
Qed.

(** *** The sample round *)

Local Open Scope string_scope.

Lemma sampleRound_analyzed :
  analyzeSkins integerToString sampleRound initialState = Normal sampleState.
Proof. vm_compute. reflexivity. Qed.

Example sampleRound_winners :
  map (fun r => winner r) (Object_values (skinsResults sampleState))
  = map VStr ["Ann"; "Cy"; "Ann"; "No Winner"; "Ann"; "No Winner";
              "Bob"; "No Winner"; "No Winner"].
Proof. reflexivity. Qed.

Local Close Scope string_scope.

Lemma hole_winner_unique_minimum_witness :
  exists r,
    get_result 1 (skinsResults sampleState) = Some r
    /\ value_ r = one /\ winner r = VStr "Ann".
Proof.
  destruct (hole_winner_unique_minimum
              integerToString sampleRound initialState sampleState 1
              sampleRound_analyzed
              (conj (le_n 1) (proj1 (Nat.leb_le 1 9) eq_refl)))
    as (r & Hr & _ & _ & Hw & _).
  exists r. split; [exact Hr|].
  vm_compute in Hr. injection Hr as <-.
  edestruct Hw as [Hv Hn]; [vm_compute; reflexivity|].
  split; [exact Hv | exact Hn].
Defined.

(** ** A score that is not a number *)

Lemma filter_none {A : Type} (f : A -> bool) (l : list A) :
  (forall x, In x l -> f x = false) -> filter f l = [].
Proof.
  induction l as [|x l IH]; simpl; intros H; [reflexivity|].
  rewrite (H x (or_introl eq_refl)). apply IH. intros y Hy. apply H. now right.
Qed.

Lemma filter_all {A : Type} (f : A -> bool) (l : list A) :
  (forall x, In x l -> f x = true) -> filter f l = l.
Proof.
  induction l as [|x l IH]; simpl; intros H; [reflexivity|].
  rewrite (H x (or_introl eq_refl)). f_equal. apply IH.
  intros y Hy. apply H. now right.
Qed.

Lemma lowestNet_NaN (netScores : list NetScore) (s : NetScore) :
  In s netScores -> net s = NaN ->
  Number.min (map net netScores) = NaN.
Proof.
  intros Hs Hn. apply NumberFacts.min_fold_has_NaN.
  apply existsb_exists. exists NaN. split; [|reflexivity].
  rewrite <- Hn. now apply in_map.
Qed.

Lemma holeResult_NaN (netScores : list NetScore) (s : NetScore) :
  In s netScores -> net s = NaN ->
  holeResult netScores
  = {| winner := noWinner; value_ := zero; hr_scores := netScores |}.
Proof.
  intros Hs Hn. unfold holeResult.
  rewrite (lowestNet_NaN netScores s Hs Hn).
  rewrite filter_none; [reflexivity|].
  intros x _. apply NumberFacts.eqb_NaN_r.
Qed.

Lemma sub_NaN_l (b : number) : Number.sub NaN b = NaN.
Proof. reflexivity. Qed.

(** C6: if on some hole the gross score of any one player is NaN, the hole
    has winner "No Winner" and value 0 whatever the other players scored. *)
Theorem nan_score_voids_hole
        (NumberToString : number -> string) (data : list row)
        (st st' : State) (holeNumber : nat) (r : HoleResult)
        (player : Player) :
  analyzeSkins NumberToString data st = Normal st' ->
  get_result holeNumber (skinsResults st') = Some r ->
  In player (players st') ->
  nth_error (scores player) (holeNumber - 1) = Some NaN ->
  winner r = noWinner /\ value_ r = zero.
Proof.
  intros H Hr Hp Hs. apply analyzeSkins_results in H.
  destruct H as (E & _ & _). rewrite E in Hr.
  apply get_result_Some in Hr. destruct Hr as (_ & ->).
  unfold holeResultAt.
  set (hh := nth (holeNumber - 1) actualHoleHandicaps NaN).
  rewrite (holeResult_NaN _ (netScore (holeNumber - 1) hh player)).
  - split; reflexivity.
  - unfold netScoresAt. now apply in_map.
  - unfold netScore. simpl. now rewrite Hs.
Qed.

(** ** The hole handicaps *)

(** C8: whatever the rows and the previous state, the hole handicaps shown
    and used are the table 4, 14, 16, 2, 18, 8, 6, 12, 10: the strokes of
    every net score of hole [holeNumber] are computed from the player's half
    handicap and the entry of that table for the hole. *)
Theorem hole_handicaps_fixed
        (NumberToString : number -> string) (data : list row)
        (st st' : State) :
  analyzeSkins NumberToString data st = Normal st' ->
  holeHandicaps st' = map of_Z [4; 14; 16; 2; 18; 8; 6; 12; 10]
  /\ forall holeNumber r,
      get_result holeNumber (skinsResults st') = Some r ->
      map strokes (hr_scores r)
      = map (fun p =>
               calculateStrokesReceived
                 (halfHandicap p)
                 (nth (holeNumber - 1)
                      (map of_Z [4; 14; 16; 2; 18; 8; 6; 12; 10]) NaN))
            (players st').
Proof.
  intros H. apply analyzeSkins_results in H. destruct H as (E & Hh & _).
  split; [exact Hh|].
  intros holeNumber r Hr. rewrite E in Hr.
  apply get_result_Some in Hr. destruct Hr as (_ & ->).
  unfold holeResultAt. rewrite hr_scores_holeResult.
  unfold netScoresAt. rewrite map_map. reflexivity.
Qed.

(** ** Determinism *)

(** C9: two runs of [analyzeSkins] on the same rows, from any two previous
    states, both throw the same exception or both return, and then with the
    same players, the same hole results, the same hole handicaps and the same
    total per player. *)
Theorem analyzeSkins_deterministic
        (NumberToString : number -> string) (data : list row)
        (st1 st2 : State) :
  match analyzeSkins NumberToString data st1,
        analyzeSkins NumberToString data st2 with
  | Normal a, Normal b =>
      players a = players b
      /\ skinsResults a = skinsResults b
      /\ holeHandicaps a = holeHandicaps b
      /\ map (totalValue a) (players a) = map (totalValue b) (players b)
  | Throw e1, Throw e2 => e1 = e2
  | _, _ => False
  end.
Proof.
  rewrite !analyzeSkins_playerRows.
  destruct (playerRows data) as [rows|e]; simpl; auto.
Qed.

(** ** A table without player rows *)

(** C3, as amended: when the filter keeps no row, [analyzeSkins] throws
    nothing and goes on to scoring: it returns with an empty player list and
    nine hole results, each with winner "No Winner", value 0 and no net
    score; the error message of the state is left as it was. *)
Theorem no_player_rows_scored
        (NumberToString : number -> string) (data : list row) (st : State) :
  playerRows data = Normal [] ->
  analyzeSkins NumberToString data st
  = Normal {| players := [];
              skinsResults := map (fun h => (h, emptyHoleResult)) (seq 1 9);
              error := error st;
              holeHandicaps := actualHoleHandicaps |}.
Proof.
  intros H. rewrite analyzeSkins_playerRows, H. reflexivity.
Qed.

Lemma nan_score_voids_hole_witness :
  winner (holeResultAt (players sampleState) 5) = noWinner
  /\ value_ (holeResultAt (players sampleState) 5) = zero.
Proof.
  apply (nan_score_voids_hole
           integerToString sampleRound initialState sampleState 6
           (holeResultAt (players sampleState) 5)
           (nth 2 (players sampleState) (mkPlayer VUndef NaN NaN []))).
  - exact sampleRound_analyzed.
  - vm_compute. reflexivity.
  - vm_compute. right. right. left. reflexivity.
  - vm_compute. reflexivity.
Defined.

Lemma hole_handicaps_fixed_witness :
  holeHandicaps sampleState = map of_Z [4; 14; 16; 2; 18; 8; 6; 12; 10].
Proof.
  exact (proj1 (hole_handicaps_fixed integerToString sampleRound initialState
                                     sampleState sampleRound_analyzed)).
Defined.

Lemma no_player_rows_scored_witness :
  analyzeSkins integerToString headersOnly initialState
  = Normal {| players := [];
              skinsResults := map (fun h => (h, emptyHoleResult)) (seq 1 9);
              error := None;
              holeHandicaps := actualHoleHandicaps |}.
Proof.
  apply (no_player_rows_scored integerToString headersOnly initialState).
  vm_compute. reflexivity.
Defined.

(** C3, as stated, fails: on a table without player rows the filter returns
    the empty list, [analyzeSkins] returns normally with nine hole results,
    and the upload handler records no error. *)
Lemma no_player_rows_no_error :
  playerRows headersOnly = Normal []
  /\ (exists st',
        analyzeSkins integerToString headersOnly initialState = Normal st'
        /\ List.length (skinsResults st') = 9%nat
        /\ players st' = [])
  /\ error (uploadComplete integerToString headersOnly initialState) = None.
Proof.
  split; [vm_compute; reflexivity|]. split; [|vm_compute; reflexivity].
  eexists. split; [vm_compute; reflexivity|]. split; reflexivity.
Qed.

(** ** Parsing the gross scores *)

(** A text that does not begin with a digit is not parsed: [parseInt] gives
    NaN, never 0. *)
Lemma stringParseInt_no_digit (s : string) :
  startsWithDigit s = false -> stringParseInt s = NaN.
Proof.
  unfold startsWithDigit, stringParseInt.
  destruct (readSign (trimStart s)) as [negative t]. simpl snd.
  destruct t as [|c t]; [reflexivity|].
  destruct (radixDigit 10 c) eqn:D; [discriminate|]. intros _.
  assert (Hc : Ascii.eqb "0" c = false).
  { destruct (Ascii.eqb "0" c) eqn:E; [|reflexivity].
    apply Ascii.eqb_eq in E. subst c. discriminate. }
  cbn [startsWith]. rewrite Hc. cbn [andb orb readDigits]. now rewrite D.
Qed.

Lemma scores_makePlayer (NumberToString : number -> string) (r : row)
      (holeIndex : nat) :
  (holeIndex < 9)%nat ->
  nth_error (scores (makePlayer NumberToString r)) holeIndex
  = option_map (parseInt NumberToString) (nth_error r (3 + holeIndex)).
Proof.
  intros H. unfold makePlayer, slice. cbn [scores].
  rewrite nth_error_map, nth_error_firstn, nth_error_skipn.
  replace (Nat.ltb holeIndex (12 - 3)) with true; [reflexivity|].
  symmetry. apply Nat.ltb_lt. simpl. exact H.
Qed.

Lemma cell_nth_error (r : row) (i : nat) (c : value) :
  nth_error r i = Some c -> cell r i = c.
Proof. intros H. unfold cell. now apply nth_error_nth. Qed.

(** C4: if [parseInt] gives NaN on the cell of a player row that holds the
    gross score of a hole (columns 3 to 11), the player's parsed score for
    the hole is NaN ([undefined] when the row ends before that column), not
    0; the player's net score for the hole is NaN, and the lowest net of the
    hole is NaN and not a number computed from a gross score of 0. *)
Theorem unparsable_score_is_NaN
        (NumberToString : number -> string) (data : list row)
        (st st' : State) (rows : list row) (k : nat) (r : row)
        (holeIndex : nat) :
  analyzeSkins NumberToString data st = Normal st' ->
  playerRows data = Normal rows ->
  nth_error rows k = Some r ->
  (holeIndex < 9)%nat ->
  parseInt NumberToString (cell r (3 + holeIndex)) = NaN ->
  exists player hr s,
    nth_error (players st') k = Some player
    /\ name player = cell r 0
    /\ nth_error (scores player) holeIndex
       = (if Nat.ltb (3 + holeIndex) (List.length r) then Some NaN else None)
    /\ get_result (holeIndex + 1) (skinsResults st') = Some hr
    /\ nth_error (hr_scores hr) k = Some s
    /\ gross s = nth_error (scores player) holeIndex
    /\ net s = NaN
    /\ Number.min (map net (hr_scores hr)) = NaN.
Proof.
  intros H Hrows Hk Hi Hp.
  apply analyzeSkins_Normal in H. destruct H as (rows' & Hrows' & ->).
  rewrite Hrows in Hrows'. injection Hrows' as <-.
  cbn [players skinsResults].
  set (playerData := map (makePlayer NumberToString) rows).
  set (hh := nth holeIndex actualHoleHandicaps NaN).
  assert (Hs : nth_error (scores (makePlayer NumberToString r)) holeIndex
               = if Nat.ltb (3 + holeIndex) (List.length r)
                 then Some NaN else None).
  { rewrite (scores_makePlayer NumberToString r holeIndex Hi).
    destruct (Nat.ltb (3 + holeIndex) (List.length r)) eqn:L.
    - apply Nat.ltb_lt in L.
      rewrite (nth_error_nth' r VUndef L). simpl. f_equal. exact Hp.
    - apply Nat.ltb_ge in L. apply nth_error_None in L. now rewrite L. }
  assert (Hn : net (netScore holeIndex hh (makePlayer NumberToString r)) = NaN).
  { unfold netScore. cbn [net]. rewrite Hs.
    destruct (Nat.ltb (3 + holeIndex) (List.length r)); reflexivity. }
  assert (Hin : nth_error (netScoresAt playerData holeIndex) k
                = Some (netScore holeIndex hh (makePlayer NumberToString r))).
  { unfold netScoresAt, playerData. fold hh.
    apply map_nth_error. now apply map_nth_error. }
  exists (makePlayer NumberToString r), (holeResultAt playerData holeIndex),
    (netScore holeIndex hh (makePlayer NumberToString r)).
  split; [unfold playerData; now apply map_nth_error|].
  split; [reflexivity|]. split; [exact Hs|].
  split.
  { rewrite get_result_holeResults.
    replace (Nat.leb 1 (holeIndex + 1)) with true
      by (symmetry; apply Nat.leb_le; lia).
    replace (Nat.leb (holeIndex + 1) 9) with true
      by (symmetry; apply Nat.leb_le; lia).
    simpl. do 2 f_equal. lia. }
  unfold holeResultAt. rewrite hr_scores_holeResult.
  split; [exact Hin|]. split; [reflexivity|]. split; [exact Hn|].
  apply (lowestNet_NaN _ _ (nth_error_In _ _ Hin) Hn).
Qed.

Lemma unparsable_score_is_NaN_witness :
  exists player hr s,
    nth_error (players sampleState) 2 = Some player
    /\ name player = VStr "Cy"
    /\ nth_error (scores player) 5 = Some NaN
    /\ get_result 6 (skinsResults sampleState) = Some hr
    /\ nth_error (hr_scores hr) 2 = Some s
    /\ gross s = nth_error (scores player) 5
    /\ net s = NaN
    /\ Number.min (map net (hr_scores hr)) = NaN.
Proof.
  exact (unparsable_score_is_NaN
           integerToString sampleRound initialState sampleState
           (firstn 3 (skipn 3 sampleRound)) 2
           (nth 5 sampleRound []) 5
           sampleRound_analyzed eq_refl eq_refl
           (proj1 (Nat.ltb_lt 5 9) eq_refl) eq_refl).
Defined.

(** ** Which rows are player rows *)

(** On a row whose third cell is a string, [null] or absent the callback
    decides as the specification says. *)
Lemma isPlayerRow_textOrBlank (r : row) :
  textOrBlank (cell r 2) = true -> isPlayerRow r = Normal (playerRowSpec r).
Proof.
  unfold isPlayerRow, playerRowSpec, reservedToken. intros H.
  destruct (truthy (cell r 0)) eqn:T; simpl; [|reflexivity].
  destruct (strict_equals (cell r 0) (VStr "Player")); simpl; [reflexivity|].
  destruct (strict_equals (cell r 0) (VStr "HDCP")); simpl; [reflexivity|].
  destruct (strict_equals (cell r 0) (VStr "PAR")); simpl; [reflexivity|].
  destruct (strict_equals (cell r 0) (VStr "")) eqn:E.
  - destruct (cell r 0) as [| | |n|s]; try discriminate.
    simpl in T, E. rewrite E in T. discriminate.
  - destruct (cell r 2); try discriminate; reflexivity.
Qed.

Lemma playerRows_textOrBlank (data : list row) :
  forallb (fun r => textOrBlank (cell r 2)) data = true ->
  playerRows data = Normal (filter playerRowSpec data).
Proof.
  unfold playerRows. induction data as [|r data IH]; simpl; intros H.
  - reflexivity.
  - apply andb_true_iff in H. destruct H as [Hr Hd].
    rewrite (isPlayerRow_textOrBlank r Hr), (IH Hd). simpl.
    destruct (playerRowSpec r); reflexivity.
Qed.

(** C5, where the program departs from it: a row with the name "Ann" and the
    number 3 in its third cell is a player row for the specification, but
    the filter callback throws a TypeError on it; [analyzeSkins] throws, the
    upload handler reports the error and the default loader leaves the state
    as it was. *)
Theorem numeric_third_cell_throws :
  map playerRowSpec numericThirdCell = [true]
  /\ playerRows numericThirdCell
     = Throw (TypeError "row[2]?.includes is not a function")
  /\ analyzeSkins integerToString numericThirdCell initialState
     = Throw (TypeError "row[2]?.includes is not a function")
  /\ error (uploadComplete integerToString numericThirdCell initialState)
     = Some "Error parsing file: row[2]?.includes is not a function"%string
  /\ loadDefaultData integerToString numericThirdCell initialState
     = initialState.
Proof. repeat split; reflexivity. Qed.

(** ** The totals by player *)

Lemma strict_equals_sym (v w : value) : strict_equals v w = strict_equals w v.
Proof.
  destruct v, w; simpl; try reflexivity.
  - now destruct b, b0.
  - apply NumberFacts.eqb_sym.
  - apply String.eqb_sym.
Qed.

Lemma strict_equals_refl (v : value) :
  truthy v = true -> strict_equals v v = true.
Proof.
  destruct v; simpl; try discriminate.
  - now destruct b.
  - intros H. apply NumberFacts.eqb_refl. now destruct n.
  - intros _. apply String.eqb_refl.
Qed.

Lemma filterC_In {A : Type} (f : A -> completion bool) (l l' : list A) :
  filterC f l = Normal l' ->
  forall x, In x l' -> In x l /\ f x = Normal true.
Proof.
  revert l'. induction l as [|y l IH]; simpl; intros l' H x Hx.
  - injection H as <-. destruct Hx.
  - destruct (f y) as [keep|e] eqn:Fy; simpl in H; [|discriminate].
    destruct (filterC f l) as [rest|e]; simpl in H; [|discriminate].
    injection H as <-. destruct keep.
    + destruct Hx as [<-|Hx]; [auto|].
      destruct (IH rest eq_refl x Hx). auto.
    + destruct (IH rest eq_refl x Hx). auto.
Qed.

Lemma isPlayerRow_truthy (r : row) :
  isPlayerRow r = Normal true -> truthy (cell r 0) = true.
Proof.
  unfold isPlayerRow. destruct (truthy (cell r 0)); simpl; congruence.
Qed.

(** Every player has a truthy name: strictly equal to itself. *)
Lemma players_truthy (NumberToString : number -> string) (data : list row)
      (st st' : State) :
  analyzeSkins NumberToString data st = Normal st' ->
  forall p, In p (players st') -> truthy (name p) = true.
Proof.
  intros H p Hp. apply analyzeSkins_Normal in H.
  destruct H as (rows & Hrows & ->). simpl in Hp.
  apply in_map_iff in Hp. destruct Hp as (r & <- & Hr).
  destruct (filterC_In _ _ _ Hrows r Hr) as [_ Hf].
  simpl. now apply isPlayerRow_truthy.
Qed.

Lemma holeResult_winner (playerData : list Player) (holeIndex : nat) :
  let r := holeResultAt playerData holeIndex in
  (value_ r = zero /\ winner r = noWinner)
  \/ (value_ r = one /\ exists p, In p playerData /\ winner r = name p).
Proof.
  unfold holeResultAt, holeResult.
  destruct (filter _ (netScoresAt playerData holeIndex))
    as [|w [|w' ws]] eqn:F; simpl; auto.
  right. split; [reflexivity|].
  assert (Hw : In w (netScoresAt playerData holeIndex)).
  { eapply proj1. rewrite <- filter_In, F. now left. }
  unfold netScoresAt in Hw. apply in_map_iff in Hw.
  destruct Hw as (p & <- & Hp). exists p. auto.
Qed.

Lemma holeResults_winner (playerData : list Player) (r : HoleResult) :
  In r (Object_values (holeResults playerData)) ->
  (value_ r = zero /\ winner r = noWinner)
  \/ (value_ r = one /\ exists p, In p playerData /\ winner r = name p).
Proof.
  unfold Object_values, holeResults. rewrite map_map. cbn [snd].
  intros H. apply in_map_iff in H. destruct H as (i & <- & _).
  apply holeResult_winner.
Qed.

Lemma add_of_Z (a b : Z) : Number.add (of_Z a) (of_Z b) = of_Z (a + b).
Proof.
  unfold of_Z, Number.add, Qplus, inject_Z. simpl.
  now rewrite !Z.mul_1_r.
Qed.

(** Adding values that are each 0 or 1 counts the ones. *)
Lemma sum_counts_won (l : list HoleResult) (a : Z) :
  (forall r, In r l -> value_ r = zero \/ value_ r = one) ->
  fold_left (fun sum skin => Number.add sum (value_ skin)) l (of_Z a)
  = of_Z (a + Z.of_nat (List.length (filter won l))).
Proof.
  revert a. induction l as [|r l IH]; intros a H; cbn [fold_left filter].
  - simpl. now rewrite Z.add_0_r.
  - assert (Hl : forall r', In r' l -> value_ r' = zero \/ value_ r' = one)
      by (intros r' Hr'; apply H; now right).
    unfold won at 1.
    destruct (H r (or_introl eq_refl)) as [E|E]; rewrite E.
    + change zero with (of_Z 0). rewrite add_of_Z, (IH _ Hl).
      change (Number.eqb (of_Z 0) one) with false. cbv iota.
      f_equal. lia.
    + change one with (of_Z 1). rewrite add_of_Z, (IH _ Hl).
      change (Number.eqb (of_Z 1) (of_Z 1)) with true. cbv iota.
      f_equal. simpl List.length. lia.
Qed.

Lemma fold_left_map_value (l : list HoleResult) (a : number) :
  fold_left Number.add (map value_ l) a
  = fold_left (fun sum skin => Number.add sum (value_ skin)) l a.
Proof.
  revert a. induction l as [|r l IH]; intros a; [reflexivity | apply IH].
Qed.

Lemma sum_of_counts {A : Type} (f : A -> nat) (l : list A) (a : Z) :
  fold_left Number.add (map (fun p => of_Z (Z.of_nat (f p))) l) (of_Z a)
  = of_Z (a + Z.of_nat (list_sum (map f l))).
Proof.
  revert a. induction l as [|p l IH]; intros a;
    cbn [map fold_left list_sum fold_right].
  - simpl. now rewrite Z.add_0_r.
  - rewrite add_of_Z, IH. f_equal. unfold list_sum. lia.
Qed.

Lemma list_sum_zero {A : Type} (l : list A) :
  list_sum (map (fun _ => O) l) = O.
Proof. induction l; simpl; auto. Qed.

Lemma list_sum_plus {A : Type} (f g : A -> nat) (l : list A) :
  list_sum (map (fun p => (f p + g p)%nat) l)
  = (list_sum (map f l) + list_sum (map g l))%nat.
Proof. induction l as [|p l IH]; simpl; [reflexivity | rewrite IH; lia]. Qed.

Lemma list_sum_indicator {A : Type} (m : A -> bool) (l : list A) :
  list_sum (map (fun p => if m p then 1%nat else O) l)
  = List.length (filter m l).
Proof.
  induction l as [|p l IH]; simpl; [reflexivity|].
  destruct (m p); simpl; now rewrite IH.
Qed.

(** Counting, for every player, the won holes carrying the player's name
    counts every won hole once, provided its winner matches one player. *)
Lemma count_by_player {P : Type} (matches : P -> HoleResult -> bool)
      (ps : list P) (rs : list HoleResult) :
  (forall r, In r rs -> won r = true ->
             List.length (filter (fun p => matches p r) ps) = 1%nat) ->
  list_sum
    (map (fun p => List.length (filter won (filter (matches p) rs))) ps)
  = List.length (filter won rs).
Proof.
  induction rs as [|r rs IH]; intros H.
  - simpl. apply list_sum_zero.
  - assert (Hrs : forall r', In r' rs -> won r' = true ->
                    List.length (filter (fun p => matches p r') ps) = 1%nat)
      by (intros r' Hr'; apply H; now right).
    rewrite (map_ext
               (fun p => List.length
                           (filter won (filter (matches p) (r :: rs))))
               (fun p => ((if matches p r && won r then 1 else 0)
                          + List.length
                              (filter won (filter (matches p) rs)))%nat)).
    + rewrite list_sum_plus, (IH Hrs). simpl.
      destruct (won r) eqn:W.
      * rewrite (map_ext _ (fun p => if matches p r then 1%nat else O))
          by (intros p; now rewrite andb_true_r).
        rewrite list_sum_indicator, (H r (or_introl eq_refl) W).
        reflexivity.
      * rewrite (map_ext _ (fun _ => O))
          by (intros p; now rewrite andb_false_r).
        now rewrite list_sum_zero.
    + intros p. simpl. destruct (matches p r); simpl; [|reflexivity].
      destruct (won r); reflexivity.
Qed.

(** Among distinct truthy names a member is strictly equal to itself only. *)
Lemma distinct_name_once (l : list value) (x : value) :
  distinctNames l = true ->
  (forall y, In y l -> truthy y = true) ->
  In x l ->
  List.length (filter (strict_equals x) l) = 1%nat.
Proof.
  induction l as [|y l IH]; simpl; intros D T Hx; [destruct Hx|].
  apply andb_true_iff in D. destruct D as [Dy Dl].
  rewrite forallb_forall in Dy.
  destruct Hx as [<-|Hx].
  - rewrite (strict_equals_refl y (T y (or_introl eq_refl))). simpl.
    rewrite filter_none; [reflexivity|].
    intros z Hz. apply negb_true_iff. now apply Dy.
  - assert (E : strict_equals x y = false).
    { rewrite strict_equals_sym. apply negb_true_iff. now apply Dy. }
    rewrite E. apply IH; auto.
Qed.

Lemma filter_map_name (x : value) (ps : list Player) :
  List.length (filter (fun p => strict_equals x (name p)) ps)
  = List.length (filter (strict_equals x) (map name ps)).
Proof.
  induction ps as [|p ps IH]; simpl; [reflexivity|].
  destruct (strict_equals x (name p)); simpl; now rewrite IH.
Qed.

(** C7: when [analyzeSkins] returns and no two players have strictly equal
    names, the values of the nine hole results add up to the same number as
    the [totalValue] of the players in the "Total Skins by Player" view.
    The total of a player whose name is not the text "No Winner" is the
    number of holes whose winner is strictly equal to the player's name. *)
Theorem skins_sum_matches_totals
        (NumberToString : number -> string) (data : list row)
        (st st' : State) :
  analyzeSkins NumberToString data st = Normal st' ->
  distinctNames (map name (players st')) = true ->
  List.length (skinsResults st') = 9%nat
  /\ sumNumbers (map value_ (Object_values (skinsResults st')))
     = sumNumbers (map (totalValue st') (players st'))
  /\ forall p,
      In p (players st') ->
      strict_equals (name p) noWinner = false ->
      totalValue st' p
      = of_Z (Z.of_nat
                (List.length
                   (filter (fun r => strict_equals (winner r) (name p))
                           (Object_values (skinsResults st'))))).
Proof.
  intros H D.
  assert (T := players_truthy NumberToString data st st' H).
  apply analyzeSkins_results in H. destruct H as (E & _ & _).
  split; [rewrite E; reflexivity|].
  set (ps := players st') in *.
  set (rs := Object_values (skinsResults st')).
  assert (V : forall r, In r rs ->
                (value_ r = zero /\ winner r = noWinner)
                \/ (value_ r = one
                    /\ exists p, In p ps /\ winner r = name p)).
  { intros r Hr. apply holeResults_winner. unfold rs in Hr.
    now rewrite E in Hr. }
  assert (V01 : forall r, In r rs -> value_ r = zero \/ value_ r = one).
  { intros r Hr. destruct (V r Hr) as [[? _]|[? _]]; auto. }
  set (matches := fun (p : Player) (r : HoleResult) =>
                    strict_equals (winner r) (name p)).
  assert (L : sumNumbers (map value_ rs)
              = of_Z (Z.of_nat (List.length (filter won rs)))).
  { unfold sumNumbers. rewrite fold_left_map_value.
    change zero with (of_Z 0). now rewrite (sum_counts_won rs 0 V01). }
  assert (R : forall p,
             totalValue st' p
             = of_Z (Z.of_nat
                       (List.length (filter won (filter (matches p) rs))))).
  { intros p. unfold totalValue. fold rs.
    change zero with (of_Z 0). rewrite sum_counts_won; [reflexivity|].
    intros r Hr. apply V01. apply filter_In in Hr. tauto. }
  split.
  - rewrite L, (map_ext _ _ R). unfold sumNumbers. change zero with (of_Z 0).
    rewrite sum_of_counts. simpl Z.add. do 2 f_equal.
    symmetry. apply count_by_player.
    intros r Hr W. destruct (V r Hr) as [[Z0 _]|(_ & p & Hp & Hw)].
    + unfold won in W. rewrite Z0 in W. discriminate.
    + unfold matches. rewrite Hw, filter_map_name.
      apply distinct_name_once; auto.
      * intros y Hy. apply in_map_iff in Hy. destruct Hy as (q & <- & Hq).
        now apply T.
      * now apply in_map.
  - intros p Hp Hn. rewrite R. do 3 f_equal.
    apply filter_all. intros r Hr. apply filter_In in Hr.
    destruct Hr as [Hr Hm]. destruct (V r Hr) as [[_ Hw]|[Hv _]].
    + unfold matches in Hm. rewrite Hw, strict_equals_sym in Hm. congruence.
    + unfold won. now rewrite Hv.
Qed.

Lemma skins_sum_matches_totals_witness :
  sumNumbers (map value_ (Object_values (skinsResults sampleState)))
  = sumNumbers (map (totalValue sampleState) (players sampleState)).
Proof.
  exact (proj1 (proj2 (skins_sum_matches_totals
                         integerToString sampleRound initialState sampleState
                         sampleRound_analyzed eq_refl))).
Defined.

Example sampleRound_totals :
  map (totalValue sampleState) (players sampleState)
  = [of_Z 3; of_Z 1; of_Z 1]
  /\ sumNumbers (map value_ (Object_values (skinsResults sampleState)))
     = of_Z 5.
Proof. split; reflexivity. Qed.

(** A player named "No Winner" matches every hole without winner; those
    holes carry the value 0, so the player's total is 0 and the two sums
    still agree. *)
Example sentinelNamed_totals :
  let st := uploadComplete integerToString sentinelNamed initialState in
  map (fun p => List.length
                  (filter (fun r => strict_equals (winner r) (name p))
                          (Object_values (skinsResults st))))
      (players st)
  = [9%nat; O]
  /\ map (totalValue st) (players st) = [of_Z 0; of_Z 0]
  /\ sumNumbers (map value_ (Object_values (skinsResults st))) = of_Z 0.
Proof. repeat split; reflexivity. Qed.

(** * Further properties of the program *)

(** ** The stroke rule *)

Lemma leb_Qeq_r (d : number) (x y : Q) :
  x == y -> Number.leb d (Fin x) = Number.leb d (Fin y).
Proof.
  intros H. destruct d; simpl; try reflexivity.
  apply eq_true_iff_eq. rewrite !Qle_bool_iff. now rewrite H.
Qed.

Lemma is_integer_ceiling (q : Q) :
  is_integer q -> q == inject_Z (Qceiling q).
Proof.
  intros [z Hz]. rewrite Hz at 2. now rewrite Qceiling_Z.
Qed.

(** Both branches of [calculateStrokesReceived] compare the hole handicap
    with the ceiling of the half handicap. *)
Lemma strokes_by_ceiling (q : Q) (d : number) :
  calculateStrokesReceived (Fin q) d
  = if Number.leb d (Number.ceil (Fin q)) then one else zero.
Proof.
  unfold calculateStrokesReceived.
  destruct (Number.eqb (Number.rem (Fin q) one) zero) eqn:E; [|reflexivity].
  apply rem_one_is_zero in E. simpl negb. cbv iota.
  now rewrite (leb_Qeq_r d _ _ (is_integer_ceiling q E)).
Qed.

Lemma leb_zero_one_cases (a b : bool) :
  (a = true -> b = true) ->
  Number.leb (if a then one else zero) (if b then one else zero) = true.
Proof. destruct a, b; intros H; try reflexivity. now specialize (H eq_refl). Qed.

(** X1: for every finite half handicap and every hole handicap (any number)
    the stroke is 1 exactly when the hole handicap is at most the ceiling of
    the half handicap: the fractional and the integer branch of the function
    apply one and the same rule. *)
Theorem strokes_one_rule (q : Q) (d : number) :
  (calculateStrokesReceived (Fin q) d = one
   <-> Number.leb d (of_Z (Qceiling q)) = true)
  /\ (calculateStrokesReceived (Fin q) d = zero
      <-> Number.leb d (of_Z (Qceiling q)) = false).
Proof.
  rewrite strokes_by_ceiling. change (Number.ceil (Fin q)) with (of_Z (Qceiling q)).
  destruct (Number.leb d (of_Z (Qceiling q))); split; split;
    congruence || discriminate.
Qed.

(** X2: a larger half handicap never loses a stroke: on every hole the
    strokes received grow with the half handicap. *)
Theorem strokes_monotone (q1 q2 : Q) (d : number) :
  (q1 <= q2)%Q ->
  Number.leb (calculateStrokesReceived (Fin q1) d)
             (calculateStrokesReceived (Fin q2) d) = true.
Proof.
  intros H. rewrite !strokes_by_ceiling. apply leb_zero_one_cases.
  intros L. eapply NumberFacts.leb_trans; [exact L|].
  apply leb_of_Z. now apply Qceiling_resp_le.
Qed.

Lemma strokes_monotone_witness :
  Number.leb (calculateStrokesReceived (Fin 4.5) (of_Z 6))
             (calculateStrokesReceived (Fin 6) (of_Z 6)) = true.
Proof.
  apply (strokes_monotone 4.5 6 (of_Z 6)). discriminate.
Defined.

Lemma In_actualHoleHandicaps (hh : number) :
  In hh actualHoleHandicaps -> exists k, hh = of_Z k /\ 2 <= k <= 18.
Proof.
  simpl. intros H.
  repeat (destruct H as [<-|H]; [eexists; split; [reflexivity|lia]|]).
  destruct H.
Qed.

(** X3: on the nine holes of the course a half handicap of at most 1 earns
    no stroke at all, and a half handicap above 17 earns a stroke on every
    hole. *)
Theorem strokes_on_the_course (q : Q) (hh : number) :
  In hh actualHoleHandicaps ->
  ((q <= 1)%Q -> calculateStrokesReceived (Fin q) hh = zero)
  /\ ((17 < q)%Q -> calculateStrokesReceived (Fin q) hh = one).
Proof.
  intros H. apply In_actualHoleHandicaps in H. destruct H as (k & -> & Hk).
  rewrite strokes_by_ceiling. change (Number.ceil (Fin q)) with (of_Z (Qceiling q)).
  split; intros Hq.
  - apply (Qceiling_resp_le q 1) in Hq. change (Qceiling 1) with 1 in Hq.
    destruct (Number.leb (of_Z k) (of_Z (Qceiling q))) eqn:L; [|reflexivity].
    apply leb_of_Z in L. lia.
  - assert (17 < Qceiling q).
    { rewrite Zlt_Qlt. eapply Qlt_le_trans; [exact Hq | apply Qle_ceiling]. }
    replace (Number.leb (of_Z k) (of_Z (Qceiling q))) with true; [reflexivity|].
    symmetry. apply leb_of_Z. lia.
Qed.

Lemma strokes_on_the_course_witness :
  calculateStrokesReceived (Fin 1) (of_Z 2) = zero
  /\ calculateStrokesReceived (Fin 17.5) (of_Z 18) = one.
Proof.
  split.
  - apply (proj1 (strokes_on_the_course 1 (of_Z 2)
                    (or_intror (or_intror (or_intror (or_introl eq_refl)))))).
    discriminate.
  - apply (proj2 (strokes_on_the_course 17.5 (of_Z 18)
                    (or_intror (or_intror (or_intror (or_intror
                       (or_introl eq_refl))))))).
    reflexivity.
Defined.


(** ** The handicap of a player *)

Lemma or_zero_not_NaN (a : number) : isNaN (or_zero a) = false.
Proof. unfold or_zero. destruct a; simpl; try reflexivity. now destruct (Qeq_bool q 0). Qed.

Lemma half_not_NaN (a : number) :
  isNaN a = false -> isNaN (Number.div a (of_Z 2)) = false.
Proof. destruct a; simpl; try reflexivity. discriminate. Qed.

(** X4: no player has a NaN handicap or half handicap.  When the handicap
    cell does not parse to a number other than zero (absent, blank, text),
    the full handicap is 0 and the player receives no stroke on any of the
    nine holes. *)
Theorem handicap_defaults_to_zero
        (NumberToString : number -> string) (r : row) :
  isNaN (fullHandicap (makePlayer NumberToString r)) = false
  /\ isNaN (halfHandicap (makePlayer NumberToString r)) = false
  /\ (Number.truthy (parseFloat NumberToString (cell r 13)) = false ->
      fullHandicap (makePlayer NumberToString r) = zero
      /\ forall hh, In hh actualHoleHandicaps ->
           calculateStrokesReceived
             (halfHandicap (makePlayer NumberToString r)) hh = zero).
Proof.
  unfold makePlayer. cbn [fullHandicap halfHandicap].
  split; [apply or_zero_not_NaN|].
  split; [apply half_not_NaN, or_zero_not_NaN|].
  intros H. unfold or_zero. rewrite H. split; [reflexivity|].
  intros hh Hh. simpl in Hh.
  repeat (destruct Hh as [<-|Hh]; [reflexivity|]). destruct Hh.
Qed.

Lemma handicap_defaults_to_zero_witness :
  fullHandicap (makePlayer integerToString (nth 5 sampleRound [])) = zero
  /\ forall hh, In hh actualHoleHandicaps ->
       calculateStrokesReceived
         (halfHandicap (makePlayer integerToString (nth 5 sampleRound [])))
         hh = zero.
Proof.
  exact (proj2 (proj2 (handicap_defaults_to_zero
                         integerToString (nth 5 sampleRound []))) eq_refl).
Defined.

(** ** Which tables are analysed and which throw *)

Lemma isPlayerRow_cases (r : row) :
  isPlayerRow r
  = if offendingRow r then Throw rowFilterError
    else Normal (playerRowSpec r).
Proof.
  unfold isPlayerRow, offendingRow, playerRowSpec, reservedToken.
  destruct (truthy (cell r 0)) eqn:T; simpl; [|reflexivity].
  destruct (strict_equals (cell r 0) (VStr "Player")); simpl; [reflexivity|].
  destruct (strict_equals (cell r 0) (VStr "HDCP")); simpl; [reflexivity|].
  destruct (strict_equals (cell r 0) (VStr "PAR")); simpl; [reflexivity|].
  destruct (strict_equals (cell r 0) (VStr "")) eqn:E.
  - destruct (cell r 0) as [| | |n|s]; try discriminate.
    simpl in T, E. rewrite E in T. discriminate.
  - destruct (cell r 2); reflexivity.
Qed.

Lemma playerRows_cases (data : list row) :
  playerRows data
  = if existsb offendingRow data then Throw rowFilterError
    else Normal (filter playerRowSpec data).
Proof.
  unfold playerRows. induction data as [|r data IH]; [reflexivity|].
  cbn [filterC existsb filter]. rewrite isPlayerRow_cases, IH.
  destruct (offendingRow r); [reflexivity|]. cbn [bind orb].
  destruct (existsb offendingRow data); [reflexivity|]. cbn [bind].
  destruct (playerRowSpec r); reflexivity.
Qed.

Lemma analyzeSkins_cases (NumberToString : number -> string)
      (data : list row) (st : State) :
  analyzeSkins NumberToString data st
  = if existsb offendingRow data then Throw rowFilterError
    else
      let playerData :=
        map (makePlayer NumberToString) (filter playerRowSpec data) in
      Normal (mkState playerData (holeResults playerData) (error st)
                      actualHoleHandicaps).
Proof.
  rewrite analyzeSkins_playerRows, playerRows_cases.
  destruct (existsb offendingRow data); reflexivity.
Qed.


(** X6: when [analyzeSkins] returns, the players are, in the order of the
    table, the rows whose first cell is truthy and not a reserved token and
    whose third cell does not contain "Pars"; each player carries the first
    cell of its row as name. *)
Theorem players_in_table_order
        (NumberToString : number -> string) (data : list row)
        (st st' : State) :
  analyzeSkins NumberToString data st = Normal st' ->
  players st'
  = map (makePlayer NumberToString) (filter playerRowSpec data)
  /\ map name (players st')
     = map (fun r => cell r 0) (filter playerRowSpec data).
Proof.
  rewrite analyzeSkins_cases.
  destruct (existsb offendingRow data); [discriminate|].
  intros H. injection H as <-. cbn [players].
  split; [reflexivity|]. now rewrite map_map.
Qed.

Lemma players_in_table_order_witness :
  map name (players sampleState) = [VStr "Ann"; VStr "Bob"; VStr "Cy"].
Proof.
  exact (proj2 (players_in_table_order
                  integerToString sampleRound initialState sampleState
                  sampleRound_analyzed)).
Defined.





Lemma filter_idempotent {A : Type} (f : A -> bool) (l : list A) :
  filter f (filter f l) = filter f l.
Proof.
  apply filter_all. intros x Hx. now apply filter_In in Hx.
Qed.

Lemma existsb_filter_false {A : Type} (f g : A -> bool) (l : list A) :
  existsb f l = false -> existsb f (filter g l) = false.
Proof.
  intros H. destruct (existsb f (filter g l)) eqn:E; [|reflexivity].
  apply existsb_exists in E. destruct E as (x & Hx & Hf).
  apply filter_In in Hx. destruct Hx as [Hx _].
  assert (existsb f l = true) by (apply existsb_exists; eauto). congruence.
Qed.

(** X8: the rows that are not player rows (headers, the pars row, the HDCP
    row, blank lines) have no influence: when [analyzeSkins] returns, it
    returns the same state on the table reduced to its player rows. *)
Theorem non_player_rows_ignored
        (NumberToString : number -> string) (data : list row)
        (st st' : State) :
  analyzeSkins NumberToString data st = Normal st' ->
  analyzeSkins NumberToString (filter playerRowSpec data) st = Normal st'.
Proof.
  rewrite !analyzeSkins_cases.
  destruct (existsb offendingRow data) eqn:E; [discriminate|].
  rewrite (existsb_filter_false _ playerRowSpec _ E), filter_idempotent.
  auto.
Qed.

Lemma non_player_rows_ignored_witness :
  analyzeSkins integerToString (filter playerRowSpec sampleRound) initialState
  = Normal sampleState.
Proof.
  exact (non_player_rows_ignored
           integerToString sampleRound initialState sampleState
           sampleRound_analyzed).
Defined.

(** ** The shape of the results *)

Lemma holeResult_winner_name (netScores : list NetScore) :
  winner (holeResult netScores) = noWinner
  \/ In (winner (holeResult netScores)) (map ns_name netScores).
Proof.
  unfold holeResult.
  destruct (filter _ netScores) as [|w [|w' ws]] eqn:F; simpl; auto.
  right. apply in_map. eapply proj1. rewrite <- filter_In, F. now left.
Qed.

Lemma netScoresAt_names (playerData : list Player) (holeIndex : nat) :
  map ns_name (netScoresAt playerData holeIndex) = map name playerData.
Proof. unfold netScoresAt. rewrite map_map. reflexivity. Qed.

(** X9: when [analyzeSkins] returns, the results hold the hole numbers 1 to
    9 in ascending order, once each; every hole result lists one net score
    per player, in the order of the players and under their names; and its
    winner is "No Winner" or the name of one of the players. *)
Theorem results_cover_nine_holes
        (NumberToString : number -> string) (data : list row)
        (st st' : State) :
  analyzeSkins NumberToString data st = Normal st' ->
  map fst (skinsResults st') = seq 1 9
  /\ forall r, In r (Object_values (skinsResults st')) ->
       map ns_name (hr_scores r) = map name (players st')
       /\ (winner r = noWinner \/ In (winner r) (map name (players st'))).
Proof.
  intros H. apply analyzeSkins_results in H. destruct H as (-> & _ & _).
  split; [reflexivity|].
  intros r Hr. unfold Object_values, holeResults in Hr.
  rewrite map_map in Hr. cbn [snd] in Hr.
  apply in_map_iff in Hr. destruct Hr as (i & <- & _).
  unfold holeResultAt. rewrite hr_scores_holeResult.
  rewrite <- (netScoresAt_names (players st') i).
  split; [reflexivity | apply holeResult_winner_name].
Qed.

Lemma results_cover_nine_holes_witness :
  map fst (skinsResults sampleState) = seq 1 9.
Proof.
  exact (proj1 (results_cover_nine_holes
                  integerToString sampleRound initialState sampleState
                  sampleRound_analyzed)).
Defined.

(** ** Uploads and the error message *)

(** X10: handling the same table twice in a row gives the state of handling
    it once, whether the analysis returns or throws. *)
Theorem upload_idempotent
        (NumberToString : number -> string) (data : list row) (st : State) :
  uploadComplete NumberToString data
                 (uploadComplete NumberToString data st)
  = uploadComplete NumberToString data st.
Proof.
  unfold uploadComplete. rewrite !analyzeSkins_cases.
  destruct (existsb offendingRow data); reflexivity.
Qed.



(** X12: from the initial state the results are rendered after an upload
    exactly when its analysis returned; after a throwing upload only the
    error message is there. *)
Theorem results_shown_iff_analysed
        (NumberToString : number -> string) (data : list row) :
  (resultsShown (uploadComplete NumberToString data initialState) = true
   <-> exists st', analyzeSkins NumberToString data initialState = Normal st')
  /\ (resultsShown (uploadComplete NumberToString data initialState) = false
      <-> error (uploadComplete NumberToString data initialState) <> None).
Proof.
  unfold uploadComplete. rewrite analyzeSkins_cases.
  destruct (existsb offendingRow data); cbv zeta; split; split;
    try reflexivity; try discriminate; intros H.
  - destruct H as [st' H]. discriminate.
  - eexists. reflexivity.
  - exfalso. apply H. reflexivity.
Qed.

(** ** Holes with a missing score and holes with one player *)

Lemma get_result_hole (playerData : list Player) (holeIndex : nat) :
  (holeIndex < 9)%nat ->
  get_result (holeIndex + 1) (holeResults playerData)
  = Some (holeResultAt playerData holeIndex).
Proof.
  intros H. rewrite get_result_holeResults.
  replace (Nat.leb 1 (holeIndex + 1)) with true
    by (symmetry; apply Nat.leb_le; lia).
  replace (Nat.leb (holeIndex + 1) 9) with true
    by (symmetry; apply Nat.leb_le; lia).
  simpl. do 2 f_equal. lia.
Qed.

(** X13: a player row that ends before the column of a hole leaves that
    player's score [undefined]; the hole then has winner "No Winner" and
    value 0 for everybody. *)
Theorem short_row_voids_hole
        (NumberToString : number -> string) (data : list row)
        (st st' : State) (r : row) (holeIndex : nat) :
  analyzeSkins NumberToString data st = Normal st' ->
  In r data ->
  playerRowSpec r = true ->
  (holeIndex < 9)%nat ->
  (List.length r <= 3 + holeIndex)%nat ->
  get_result (holeIndex + 1) (skinsResults st')
  = Some {| winner := noWinner;
            value_ := zero;
            hr_scores := netScoresAt (players st') holeIndex |}.
Proof.
  rewrite analyzeSkins_cases.
  destruct (existsb offendingRow data); [discriminate|].
  intros H Hr Hs Hi Hl. injection H as <-. cbn [players skinsResults].
  rewrite (get_result_hole _ _ Hi). f_equal. unfold holeResultAt.
  set (hh := nth holeIndex actualHoleHandicaps NaN).
  apply (holeResult_NaN _ (netScore holeIndex hh
                                    (makePlayer NumberToString r))).
  - unfold netScoresAt. apply in_map, in_map. apply filter_In. auto.
  - unfold netScore. cbn [net].
    rewrite (scores_makePlayer NumberToString r holeIndex Hi).
    apply nth_error_None in Hl. now rewrite Hl.
Qed.

Lemma short_row_voids_hole_witness :
  get_result 5 (skinsResults (uploadComplete integerToString shortRow
                                             initialState))
  = Some {| winner := noWinner;
            value_ := zero;
            hr_scores :=
              netScoresAt (players (uploadComplete integerToString shortRow
                                                   initialState)) 4 |}.
Proof.
  apply (short_row_voids_hole
           integerToString shortRow initialState
           (uploadComplete integerToString shortRow initialState)
           (firstn 7 (nth 4 sampleRound [])) 4).
  - reflexivity.
  - right. left. reflexivity.
  - reflexivity.
  - apply Nat.ltb_lt. reflexivity.
  - apply Nat.leb_le. reflexivity.
Defined.

Lemma sub_stroke_not_NaN (g s : number) :
  isNaN g = false -> s = zero \/ s = one -> isNaN (Number.sub g s) = false.
Proof. intros Hg [->| ->]; destruct g; simpl in *; congruence. Qed.

Lemma strokes_zero_or_one (h d : number) :
  calculateStrokesReceived h d = zero \/ calculateStrokesReceived h d = one.
Proof.
  unfold calculateStrokesReceived.
  destruct (negb _); destruct (Number.leb _ _); auto.
Qed.

(** X14: a player alone on the card wins every hole on which the player's
    score is a number, with value 1. *)
Theorem lone_player_wins
        (NumberToString : number -> string) (data : list row)
        (st st' : State) (p : Player) (holeIndex : nat) (g : number) :
  analyzeSkins NumberToString data st = Normal st' ->
  players st' = [p] ->
  (holeIndex < 9)%nat ->
  nth_error (scores p) holeIndex = Some g ->
  isNaN g = false ->
  exists r,
    get_result (holeIndex + 1) (skinsResults st') = Some r
    /\ winner r = name p /\ value_ r = one.
Proof.
  intros H Hp Hi Hg Hn. apply analyzeSkins_results in H.
  destruct H as (-> & _ & _). rewrite Hp, (get_result_hole _ _ Hi).
  eexists. split; [reflexivity|].
  unfold holeResultAt, netScoresAt, holeResult. cbn [map].
  set (s := netScore holeIndex _ p).
  assert (Hs : isNaN (net s) = false).
  { unfold s, netScore. cbn [net]. rewrite Hg.
    apply sub_stroke_not_NaN; [exact Hn | apply strokes_zero_or_one]. }
  cbn [filter].
  rewrite (NumberFacts.eqb_min [net s] (net s) (or_introl eq_refl)).
  cbn [forallb]. rewrite (NumberFacts.leb_refl _ Hs). simpl. auto.
Qed.

Lemma lone_player_wins_witness :
  exists r,
    get_result 1 (skinsResults (uploadComplete integerToString lonePlayer
                                               initialState)) = Some r
    /\ winner r = VStr "Ann" /\ value_ r = one.
Proof.
  apply (lone_player_wins
           integerToString lonePlayer initialState
           (uploadComplete integerToString lonePlayer initialState)
           (makePlayer integerToString (nth 3 sampleRound []))
           0 (of_Z 4)).
  - reflexivity.
  - reflexivity.
  - apply Nat.ltb_lt. reflexivity.
  - reflexivity.
  - reflexivity.
Defined.

(** ** The bold cells of the results table *)

Lemma exists_least (l : list number) :
  l <> [] -> existsb isNaN l = false ->
  exists x, In x l /\ forallb (Number.leb x) l = true.
Proof.
  intros Hl HN.
  destruct (NumberFacts.min_fold_least l PInf eq_refl HN)
    as (Hm & Hin & _ & Hall).
  set (m := fold_left min2 l PInf) in *.
  destruct Hin as [E|Hin].
  - destruct l as [|y l']; [contradiction|].
    exists y. split; [now left|]. apply forallb_forall. intros z Hz.
    assert (Hy : isNaN y = false).
    { destruct (isNaN y) eqn:Ey; [|reflexivity].
      simpl in HN. rewrite Ey in HN. discriminate. }
    eapply NumberFacts.leb_trans; [apply NumberFacts.leb_PInf; exact Hy|].
    rewrite <- E. now apply Hall.
  - exists m. split; [exact Hin|]. now apply forallb_forall.
Qed.

(** X15: in every hole result the bold cells are the net scores that are
    below or equal to every net score of the hole.  No cell is bold when
    some net score is NaN; at least one is bold when there are players and no
    net score is NaN; and the hole has value 1 exactly when one single cell
    is bold. *)
Theorem bold_cells
        (NumberToString : number -> string) (data : list row)
        (st st' : State) (r : HoleResult) :
  analyzeSkins NumberToString data st = Normal st' ->
  In r (Object_values (skinsResults st')) ->
  filter (highlighted r) (hr_scores r)
  = filter (attainsMinimum (hr_scores r)) (hr_scores r)
  /\ (existsb (fun s => isNaN (net s)) (hr_scores r) = true ->
      filter (highlighted r) (hr_scores r) = [])
  /\ (players st' <> [] ->
      existsb (fun s => isNaN (net s)) (hr_scores r) = false ->
      filter (highlighted r) (hr_scores r) <> [])
  /\ (value_ r = one
      <-> List.length (filter (highlighted r) (hr_scores r)) = 1%nat).
Proof.
  intros H Hr. apply analyzeSkins_results in H. destruct H as (E & _ & _).
  rewrite E in Hr. unfold Object_values, holeResults in Hr.
  rewrite map_map in Hr. cbn [snd] in Hr.
  apply in_map_iff in Hr. destruct Hr as (i & <- & _).
  unfold holeResultAt. rewrite hr_scores_holeResult.
  set (l := netScoresAt (players st') i).
  assert (F : filter (highlighted (holeResult l)) l
              = filter (attainsMinimum l) l).
  { unfold highlighted. rewrite hr_scores_holeResult.
    apply winners_attain_minimum. }
  rewrite F. split; [reflexivity|]. split; [|split].
  - intros HN. apply existsb_exists in HN. destruct HN as (s & Hs & Hn).
    rewrite <- winners_attain_minimum.
    rewrite (lowestNet_NaN l s Hs) by (now destruct (net s)).
    apply filter_none. intros x _. apply NumberFacts.eqb_NaN_r.
  - intros Hp HN.
    assert (HN' : existsb isNaN (map net l) = false).
    { rewrite <- HN. clear. induction l as [|s l IH]; simpl;
        [reflexivity | now rewrite IH]. }
    assert (Hl : map net l <> []).
    { unfold l, netScoresAt. destruct (players st'); [contradiction|].
      discriminate. }
    destruct (exists_least (map net l) Hl HN') as (x & Hx & Hall).
    apply in_map_iff in Hx. destruct Hx as (s & <- & Hs).
    intros Hnil.
    assert (Hin : In s (filter (attainsMinimum l) l)).
    { apply filter_In. split; [exact Hs|].
      unfold attainsMinimum. now rewrite <- forallb_map_net. }
    rewrite Hnil in Hin. destruct Hin.
  - apply (holeResult_cases l).
Qed.

Lemma bold_cells_witness :
  filter (highlighted (holeResultAt (players sampleState) 5))
         (hr_scores (holeResultAt (players sampleState) 5))
  = [].
Proof.
  apply (proj1 (proj2 (bold_cells
                         integerToString sampleRound initialState sampleState
                         (holeResultAt (players sampleState) 5)
                         sampleRound_analyzed
                         (or_intror (or_intror (or_intror (or_intror
                            (or_intror (or_introl eq_refl))))))))).
  reflexivity.
Defined.

(** ** Equal handicaps *)





(** ** The order of the players *)

Lemma Permutation_filter {A : Type} (f : A -> bool) (l l' : list A) :
  Permutation l l' -> Permutation (filter f l) (filter f l').
Proof.
  induction 1 as [|x l l' _ IH|x y l|l l' l'' _ IH1 _ IH2]; simpl.
  - constructor.
  - destruct (f x); [now constructor | exact IH].
  - destruct (f x), (f y); try reflexivity. constructor.
  - now transitivity (filter f l').
Qed.

Lemma forallb_Permutation {A : Type} (f : A -> bool) (l l' : list A) :
  Permutation l l' -> forallb f l = forallb f l'.
Proof.
  intros P. apply eq_true_iff_eq. rewrite !forallb_forall.
  split; intros H x Hx; apply H.
  - eapply Permutation_in; [symmetry; exact P | exact Hx].
  - eapply Permutation_in; [exact P | exact Hx].
Qed.

Lemma holeResult_Permutation (l l' : list NetScore) :
  Permutation l l' ->
  winner (holeResult l) = winner (holeResult l')
  /\ value_ (holeResult l) = value_ (holeResult l').
Proof.
  intros P. unfold holeResult. rewrite !winners_attain_minimum.
  assert (Q : Permutation (filter (attainsMinimum l) l)
                          (filter (attainsMinimum l') l')).
  { rewrite (filter_ext (attainsMinimum l') (attainsMinimum l)).
    - now apply Permutation_filter.
    - intros s. unfold attainsMinimum. symmetry.
      now apply forallb_Permutation. }
  destruct (filter (attainsMinimum l) l) as [|w [|w2 ws]].
  - apply Permutation_nil in Q. rewrite Q. auto.
  - apply Permutation_length_1_inv in Q. rewrite Q. auto.
  - assert (L := Permutation_length Q).
    destruct (filter (attainsMinimum l') l') as [|v [|v2 vs]];
      simpl in L; try discriminate. auto.
Qed.

(** X17: the order of the rows does not decide who wins.  If a table is
    analysed, every reordering of its rows is analysed too, and on every hole
    the winner and the value are the same. *)
Theorem row_order_irrelevant
        (NumberToString : number -> string) (data data' : list row)
        (st st' : State) :
  Permutation data data' ->
  analyzeSkins NumberToString data st = Normal st' ->
  exists st'',
    analyzeSkins NumberToString data' st = Normal st''
    /\ Permutation (players st') (players st'')
    /\ forall holeNumber,
        option_map winner (get_result holeNumber (skinsResults st'))
        = option_map winner (get_result holeNumber (skinsResults st''))
        /\ option_map value_ (get_result holeNumber (skinsResults st'))
           = option_map value_ (get_result holeNumber (skinsResults st'')).
Proof.
  intros P. rewrite !analyzeSkins_cases.
  destruct (existsb offendingRow data) eqn:E; [discriminate|].
  assert (E' : existsb offendingRow data' = false).
  { destruct (existsb offendingRow data') eqn:E'; [|reflexivity].
    apply existsb_exists in E'. destruct E' as (r & Hr & Ho).
    assert (existsb offendingRow data = true).
    { apply existsb_exists. exists r. split; [|exact Ho].
      eapply Permutation_in; [symmetry; exact P | exact Hr]. }
    congruence. }
  rewrite E'. intros H. injection H as <-. eexists. split; [reflexivity|].
  cbv zeta. cbn [players skinsResults].
  assert (Q : Permutation
                (map (makePlayer NumberToString) (filter playerRowSpec data))
                (map (makePlayer NumberToString) (filter playerRowSpec data')))
    by (apply Permutation_map, Permutation_filter, P).
  split; [exact Q|].
  intros holeNumber. rewrite !get_result_holeResults.
  destruct (Nat.leb 1 holeNumber && Nat.leb holeNumber 9); [|auto].
  cbn [option_map]. unfold holeResultAt, netScoresAt.
  destruct (holeResult_Permutation _ _
              (Permutation_map
                 (netScore (holeNumber - 1)
                           (nth (holeNumber - 1) actualHoleHandicaps NaN))
                 Q)) as [Hw Hv].
  now rewrite Hw, Hv.
Qed.

Lemma sampleRoundReordered_Permutation :
  Permutation sampleRound sampleRoundReordered.
Proof.
  vm_compute. do 3 apply perm_skip.
  match goal with
  | |- Permutation [?a; ?b; ?c; ?d] _ =>
      apply (Permutation_app_tail [d] (Permutation_app_comm [a; b] [c]))
  end.
Qed.

Lemma row_order_irrelevant_witness :
  exists st'',
    analyzeSkins integerToString sampleRoundReordered initialState
    = Normal st''
    /\ Permutation (players sampleState) (players st'')
    /\ forall holeNumber,
        option_map winner (get_result holeNumber (skinsResults sampleState))
        = option_map winner (get_result holeNumber (skinsResults st''))
        /\ option_map value_
             (get_result holeNumber (skinsResults sampleState))
           = option_map value_ (get_result holeNumber (skinsResults st'')).
Proof.
  exact (row_order_irrelevant
           integerToString sampleRound sampleRoundReordered
           initialState sampleState
           sampleRoundReordered_Permutation sampleRound_analyzed).
Defined.

(** ** One hole at a time *)

Lemma netScore_holeView (holeIndex : nat) (hh : number) (ps ps' : list Player) :
  map (holeView holeIndex) ps = map (holeView holeIndex) ps' ->
  map (netScore holeIndex hh) ps = map (netScore holeIndex hh) ps'.
Proof.
  revert ps'. induction ps as [|p ps IH]; intros [|p' ps'] H;
    try discriminate; [reflexivity|].
  cbn [map] in *. injection H as Hn Hh Hs Ht.
  rewrite (IH ps' Ht). f_equal.
  unfold netScore. now rewrite Hn, Hh, Hs.
Qed.

(** X18: the result of a hole depends on the players' names, half handicaps
    and scores of that hole only: two analysed tables whose players agree on
    these have the same result for the hole, whatever the other scores and
    the previous states. *)
Theorem hole_depends_on_its_column
        (NumberToString : number -> string) (data1 data2 : list row)
        (st1 st2 a b : State) (holeIndex : nat) :
  analyzeSkins NumberToString data1 st1 = Normal a ->
  analyzeSkins NumberToString data2 st2 = Normal b ->
  (holeIndex < 9)%nat ->
  map (holeView holeIndex) (players a) = map (holeView holeIndex) (players b) ->
  exists r,
    get_result (holeIndex + 1) (skinsResults a) = Some r
    /\ get_result (holeIndex + 1) (skinsResults b) = Some r.
Proof.
  intros Ha Hb Hi Hv.
  apply analyzeSkins_results in Ha, Hb.
  destruct Ha as (-> & _ & _). destruct Hb as (-> & _ & _).
  rewrite !(get_result_hole _ _ Hi). eexists. split; [reflexivity|].
  unfold holeResultAt, netScoresAt.
  now rewrite (netScore_holeView holeIndex _ _ _ Hv).
Qed.

Lemma hole_depends_on_its_column_witness :
  exists r,
    get_result 2 (skinsResults sampleState) = Some r
    /\ get_result 2 (skinsResults
                       (uploadComplete integerToString sampleRoundOtherScore
                                       initialState)) = Some r.
Proof.
  apply (hole_depends_on_its_column
           integerToString sampleRound sampleRoundOtherScore
           initialState initialState sampleState
           (uploadComplete integerToString sampleRoundOtherScore initialState)
           1 sampleRound_analyzed).
  - reflexivity.
  - apply Nat.ltb_lt. reflexivity.
  - reflexivity.
Defined.

(** ** The summary list and the totals *)

Lemma strict_equals_noWinner : strict_equals noWinner noWinner = true.
Proof. reflexivity. Qed.

Lemma holeResults_entry (playerData : list Player) (e : nat * HoleResult) :
  In e (holeResults playerData) ->
  In (snd e) (Object_values (holeResults playerData)).
Proof. intros H. unfold Object_values. now apply in_map. Qed.

(** X19: every line of the "Skins Summary" list is a hole with value 1 won
    by one of the players; and when no player is named "No Winner" the list
    holds exactly the holes with value 1, in ascending order of hole
    number. *)
Theorem summary_lists_won_holes
        (NumberToString : number -> string) (data : list row)
        (st st' : State) :
  analyzeSkins NumberToString data st = Normal st' ->
  (forall e, In e (summaryEntries st') ->
             value_ (snd e) = one
             /\ exists p, In p (players st') /\ winner (snd e) = name p)
  /\ ((forall p, In p (players st') ->
                 strict_equals (name p) noWinner = false) ->
      summaryEntries st'
      = filter (fun e => won (snd e)) (skinsResults st')).
Proof.
  intros H. apply analyzeSkins_results in H. destruct H as (E & _ & _).
  unfold summaryEntries. rewrite E. split.
  - intros e He. apply filter_In in He. destruct He as [He Hw].
    destruct (holeResults_winner _ _ (holeResults_entry _ _ He))
      as [[_ Hn]|[Hv Hp]]; [|auto].
    rewrite Hn, strict_equals_noWinner in Hw. discriminate.
  - intros Hn. apply filter_ext_in. intros e He.
    destruct (holeResults_winner _ _ (holeResults_entry _ _ He))
      as [[Hv Hw]|[Hv (p & Hp & Hw)]]; unfold won; rewrite Hv, Hw.
    + reflexivity.
    + now rewrite (Hn p Hp).
Qed.

Lemma summary_lists_won_holes_witness :
  map fst (summaryEntries sampleState) = [1; 2; 3; 5; 7]%nat.
Proof.
  rewrite (proj2 (summary_lists_won_holes
                    integerToString sampleRound initialState sampleState
                    sampleRound_analyzed)).
  - reflexivity.
  - intros p [<-|[<-|[<-|[]]]]; reflexivity.
Defined.

Lemma eqb_of_Z (a b : Z) : Number.eqb (of_Z a) (of_Z b) = (a =? b)%Z.
Proof.
  unfold of_Z, Number.eqb, Qeq_bool. simpl. now rewrite !Z.mul_1_r.
Qed.

Lemma ltb_of_Z (a b : Z) : Number.ltb (of_Z a) (of_Z b) = (a <? b)%Z.
Proof.
  unfold of_Z, Number.ltb, Qle_bool. simpl.
  now rewrite !Z.mul_1_r, Z.ltb_antisym.
Qed.

Lemma filter_length_le {A : Type} (f : A -> bool) (l : list A) :
  (List.length (filter f l) <= List.length l)%nat.
Proof.
  induction l as [|x l IH]; simpl; [lia|]. destruct (f x); simpl; lia.
Qed.

(** X20: when [analyzeSkins] returns, the total of any player is a whole
    number of skins between 0 and 9; the player has a line in "Total Skins
    by Player" exactly when the total is at least 1, and the line reads
    "skin" exactly when the total is 1. *)
Theorem totals_between_zero_and_nine
        (NumberToString : number -> string) (data : list row)
        (st st' : State) (p : Player) :
  analyzeSkins NumberToString data st = Normal st' ->
  exists k : nat,
    (k <= 9)%nat
    /\ totalValue st' p = of_Z (Z.of_nat k)
    /\ (totalShown st' p = true <-> (1 <= k)%nat)
    /\ (skinLabel st' p = "skin"%string <-> k = 1%nat).
Proof.
  intros H. apply analyzeSkins_results in H. destruct H as (E & _ & _).
  set (rs := filter (fun r => strict_equals (winner r) (name p))
                    (Object_values (skinsResults st'))).
  assert (T : totalValue st' p
              = of_Z (Z.of_nat (List.length (filter won rs)))).
  { unfold totalValue. fold rs. change zero with (of_Z 0).
    rewrite sum_counts_won; [reflexivity|].
    intros r Hr. apply filter_In in Hr. destruct Hr as [Hr _].
    rewrite E in Hr.
    destruct (holeResults_winner _ _ Hr) as [[? _]|[? _]]; auto. }
  exists (List.length (filter won rs)). split; [|split; [exact T|split]].
  - eapply Nat.le_trans; [apply filter_length_le|].
    eapply Nat.le_trans; [apply filter_length_le|].
    rewrite E. unfold Object_values. rewrite length_map. reflexivity.
  - unfold totalShown. rewrite T. change zero with (of_Z 0).
    rewrite ltb_of_Z, Z.ltb_lt. lia.
  - unfold skinLabel. rewrite T. change one with (of_Z 1).
    rewrite eqb_of_Z.
    destruct (Z.of_nat (List.length (filter won rs)) =? 1)%Z eqn:Q.
    + apply Z.eqb_eq in Q. split; [lia | reflexivity].
    + apply Z.eqb_neq in Q. split; [discriminate | lia].
Qed.

Lemma totals_between_zero_and_nine_witness :
  exists k : nat,
    (k <= 9)%nat
    /\ totalValue sampleState (nth 1 (players sampleState)
                                   (mkPlayer VUndef NaN NaN []))
       = of_Z (Z.of_nat k)
    /\ (totalShown sampleState (nth 1 (players sampleState)
                                    (mkPlayer VUndef NaN NaN [])) = true
        <-> (1 <= k)%nat)
    /\ (skinLabel sampleState (nth 1 (players sampleState)
                                   (mkPlayer VUndef NaN NaN []))
        = "skin"%string <-> k = 1%nat).
Proof.
  exact (totals_between_zero_and_nine
           integerToString sampleRound initialState sampleState
           (nth 1 (players sampleState) (mkPlayer VUndef NaN NaN []))
           sampleRound_analyzed).
Defined.

(** ** Scores are integers *)




